(** * Z-score anomaly detection behind the HTTP ingestion service

    A shallow embedding of [helper.py] (class [AnomalyDetectionZscore]) and
    of the two sensor handlers of [app_fastapi.py].

    - Python objects that are mutated in place are modelled by explicit
      state passing: a method is a function from the object's state to the
      new state and an outcome, the outcome being a value or a raised
      exception.  A state change made before an exception is raised stays.
    - Python numbers are an interface ([PyNumbers]); the detector and the
      handlers are written once against it.  [Py64] implements it for the
      [int]/[float] tower of CPython 3.11: unbounded integers, IEEE-754
      binary64 floats and the [statistics] module's exact-fraction
      algorithms.
    - The float power [x ** 2] of the vibration handler comes from the C
      library's [pow]; it is an interface of its own ([PyPower]), and
      [Py64] implements it for any C library ([Py64.Libm]). *)

From Stdlib Require Import ZArith QArith Lia List String SpecFloat.
From stdpp Require Import gmap strings list.

Open Scope Z_scope.

(** ** Exceptions and outcomes *)

Inductive exn : Set :=
| NameError
| StatisticsError
| ZeroDivisionError
| OverflowError
| IndexError
| ValueError
| AttributeError
| KeyError.

Inductive result (A : Type) : Type :=
| Ok (a : A)
| Raise (e : exn).

Arguments Ok {A} a.
Arguments Raise {A} e.

Definition is_ok {A} (r : result A) : bool :=
  match r with Ok _ => true | Raise _ => false end.

(** ** The numeric operations the service uses

    One field per Python operation that occurs in the two source files.
    Operations that can raise return a [result]. *)

Class PyNumbers : Type := {
  num : Type;
  (** an [int] object *)
  py_int : Z -> num;
  (** the float literal [m]e[e10], e.g. [0.001] is [py_float_literal 1 (-3)] *)
  py_float_literal : Z -> Z -> num;
  (** [a == b] and [a > b] *)
  py_eq : num -> num -> bool;
  py_gt : num -> num -> bool;
  (** [abs(a)] *)
  py_abs : num -> num;
  (** [round(a, ndigits)] *)
  py_round : num -> Z -> result num;
  (** [a - b], [a + b], [a / b] *)
  py_sub : num -> num -> result num;
  py_add : num -> num -> result num;
  py_truediv : num -> num -> result num;
  (** [float(a)] and [math.sqrt(a)] *)
  py_float : num -> result num;
  math_sqrt : num -> result num;
  (** [statistics.mean(data)] and [statistics.stdev(data)] *)
  statistics_mean : list num -> result num;
  statistics_stdev : list num -> result num;
  (** [datetime.fromtimestamp(t, UTC)] *)
  datetime : Type;
  datetime_fromtimestamp : num -> result datetime
}.

(** [a ** 2].  On floats CPython takes the power from the C library's
    [pow], whose result the language does not fix, so this one operation
    is kept apart from the ones above. *)
Class PyPower {PN : PyNumbers} : Type := {
  py_pow2 : num -> result num
}.

(** ** CPython's numbers *)

Module Py64.

Definition prec : Z := 53.
Definition emax : Z := 1024.

(** A Python number read from a JSON body is an [int] or a [float]. *)
Inductive pynum : Type :=
| PInt (n : Z)
| PFloat (f : spec_float).

Definition is_finite (f : spec_float) : bool :=
  match f with
  | S754_zero _ | S754_finite _ _ _ => true
  | S754_infinity _ | S754_nan => false
  end.

Definition is_zero (f : spec_float) : bool :=
  match f with S754_zero _ => true | _ => false end.

Definition overflow_check (f : spec_float) : result spec_float :=
  match f with
  | S754_infinity _ => Raise OverflowError
  | _ => Ok f
  end.

(** [float(n)] for an int: correctly rounded, [OverflowError] beyond the
    binary64 range. *)
Definition float_of_int (n : Z) : result spec_float :=
  overflow_check (binary_normalize prec emax n 0 false).

(** [a / b] on ints: the correctly rounded quotient. *)
Definition int_truediv (a b : Z) : result spec_float :=
  if b =? 0 then Raise ZeroDivisionError
  else
    let negate := xorb (a <? 0) (b <? 0) in
    match Z.abs a with
    | Zpos p =>
        overflow_check
          (SFdiv prec emax (S754_finite negate p 0)
                 (S754_finite false (Z.to_pos (Z.abs b)) 0))
    | _ => Ok (S754_zero negate)
    end.

(** Normalised fractions, as [fractions.Fraction] keeps them. *)
Definition Fraction (n : Z) (d : positive) : Q := Qred (n # d).

Definition float_of_Fraction (q : Q) : result spec_float :=
  int_truediv (Qnum q) (Zpos (Qden q)).

(** The exact value of a finite float. *)
Definition exact_value (f : spec_float) : Q :=
  match f with
  | S754_finite s m e =>
      if 0 <=? e then Fraction (cond_Zopp s (Zpos m) * 2 ^ e) 1
      else Fraction (cond_Zopp s (Zpos m)) (Z.to_pos (2 ^ (- e)))
  | _ => Fraction 0 1
  end.

(** [float.as_integer_ratio] *)
Definition as_integer_ratio (f : spec_float) : result Q :=
  match f with
  | S754_infinity _ => Raise OverflowError
  | S754_nan => Raise ValueError
  | _ => Ok (exact_value f)
  end.

(** Nearest integer to a fraction, ties to even. *)
Definition round_half_even (q : Q) : Z :=
  let n := Qnum q in
  let d := Zpos (Qden q) in
  let fl := n / d in
  match (2 * (n mod d)) ?= d with
  | Lt => fl
  | Gt => fl + 1
  | Eq => if Z.even fl then fl else fl + 1
  end.

(** [round(x, ndigits)] on a float: the exact value is rounded half-even
    to [ndigits] decimals, and the decimal is read back as the nearest
    float. *)
Definition float_round (f : spec_float) (ndigits : Z) : result spec_float :=
  match f with
  | S754_finite s m e =>
      if 323 <? ndigits then Ok f
      else if ndigits <? -308 then Ok (S754_zero s)
      else
        let q := exact_value (S754_finite false m e) in
        let scaled :=
          if 0 <=? ndigits then Qred (q * inject_Z (10 ^ ndigits))%Q
          else Qred (q / inject_Z (10 ^ (- ndigits)))%Q in
        let n := round_half_even scaled in
        let r :=
          if 0 <=? ndigits then int_truediv n (10 ^ ndigits)
          else int_truediv (n * 10 ^ (- ndigits)) 1 in
        match r with
        | Ok x => Ok (if s then SFopp x else x)
        | Raise _ => Raise OverflowError
        end
  | _ => Ok f
  end.

(** [round(n, ndigits)] on an int. *)
Definition int_round (n : Z) (ndigits : Z) : Z :=
  if 0 <=? ndigits then n
  else round_half_even (Fraction n (Z.to_pos (10 ^ (- ndigits)))) * 10 ^ (- ndigits).

(** Comparison is exact, also between an int and a float; [None] when a
    NaN is involved. *)
Definition compare (a b : pynum) : option comparison :=
  match a, b with
  | PInt x, PInt y => Some (x ?= y)
  | PFloat x, PFloat y => SFcompare x y
  | PInt x, PFloat y =>
      match y with
      | S754_nan => None
      | S754_infinity s => Some (if s then Gt else Lt)
      | _ => Some (Qcompare (inject_Z x) (exact_value y))
      end
  | PFloat x, PInt y =>
      match x with
      | S754_nan => None
      | S754_infinity s => Some (if s then Lt else Gt)
      | _ => Some (Qcompare (exact_value x) (inject_Z y))
      end
  end.

Definition eq (a b : pynum) : bool :=
  match compare a b with Some Eq => true | _ => false end.

Definition gt (a b : pynum) : bool :=
  match compare a b with Some Gt => true | _ => false end.

Definition abs (a : pynum) : pynum :=
  match a with
  | PInt n => PInt (Z.abs n)
  | PFloat f => PFloat (SFabs f)
  end.

Definition round (a : pynum) (ndigits : Z) : result pynum :=
  match a with
  | PInt n => Ok (PInt (int_round n ndigits))
  | PFloat f =>
      match float_round f ndigits with
      | Ok r => Ok (PFloat r)
      | Raise e => Raise e
      end
  end.

(** [float(a)] *)
Definition to_float (a : pynum) : result spec_float :=
  match a with
  | PInt n => float_of_int n
  | PFloat f => Ok f
  end.

(** A binary operator on mixed operands converts the int operand first. *)
Definition float_binop (op : spec_float -> spec_float -> result spec_float)
           (a b : pynum) : result pynum :=
  match to_float a with
  | Raise e => Raise e
  | Ok x =>
      match to_float b with
      | Raise e => Raise e
      | Ok y =>
          match op x y with
          | Ok r => Ok (PFloat r)
          | Raise e => Raise e
          end
      end
  end.

Definition sub (a b : pynum) : result pynum :=
  match a, b with
  | PInt x, PInt y => Ok (PInt (x - y))
  | _, _ => float_binop (fun x y => Ok (SFsub prec emax x y)) a b
  end.

Definition add (a b : pynum) : result pynum :=
  match a, b with
  | PInt x, PInt y => Ok (PInt (x + y))
  | _, _ => float_binop (fun x y => Ok (SFadd prec emax x y)) a b
  end.

Definition float_div (x y : spec_float) : result spec_float :=
  if is_zero y then Raise ZeroDivisionError else Ok (SFdiv prec emax x y).

Definition truediv (a b : pynum) : result pynum :=
  match a, b with
  | PInt x, PInt y =>
      match int_truediv x y with
      | Ok r => Ok (PFloat r)
      | Raise e => Raise e
      end
  | _, _ => float_binop float_div a b
  end.

(** [errno] after a call into the C library, as far as [float_pow]
    tells its values apart. *)
Inductive errno : Set :=
| ENone
| ERANGE
| EOther.

(** The C library.  [pow_2 x] is what [pow(x, 2.0)] returns and what it
    leaves in [errno], for the arguments [float_pow] passes on: finite
    and positive, other than 1.0.  C requires no correct rounding of
    [pow], and the libraries differ in the last place. *)
Class Libm : Type := {
  pow_2 : spec_float -> spec_float * errno
}.

Definition is_infinity (f : spec_float) : bool :=
  match f with S754_infinity _ => true | _ => false end.

(** [_Py_ADJUST_ERANGE1]: an infinite result counts as a range error
    whether or not the library reported it, an underflow to zero does
    not count. *)
Definition adjust_erange (ix : spec_float) (err : errno) : errno :=
  match err with
  | ENone => if is_infinity ix then ERANGE else ENone
  | ERANGE => if is_zero ix then ENone else ERANGE
  | EOther => EOther
  end.

(** [float_pow] of floatobject.c with the exponent 2.0: the special
    cases are sorted out before the library is called, a negative base
    is passed on as its magnitude. *)
Definition float_pow2 {L : Libm} (f : spec_float) : result spec_float :=
  match f with
  | S754_nan => Ok S754_nan
  | S754_infinity _ => Ok (S754_infinity false)
  | S754_zero _ => Ok (S754_zero false)
  | S754_finite _ m e =>
      let iv := S754_finite false m e in
      match SFcompare iv (S754_finite false 1 0) with
      | Some Eq => Ok (S754_finite false 4503599627370496 (-52))
      | _ =>
          let '(ix, err) := pow_2 iv in
          match adjust_erange ix err with
          | ENone => Ok ix
          | ERANGE => Raise OverflowError
          | EOther => Raise ValueError
          end
      end
  end.

(** [a ** 2]: exact on ints, [float_pow] on floats. *)
Definition pow2 {L : Libm} (a : pynum) : result pynum :=
  match a with
  | PInt n => Ok (PInt (n * n))
  | PFloat f =>
      match float_pow2 f with
      | Ok r => Ok (PFloat r)
      | Raise e => Raise e
      end
  end.

Definition float (a : pynum) : result pynum :=
  match to_float a with
  | Ok f => Ok (PFloat f)
  | Raise e => Raise e
  end.

(** [math.sqrt]: [ValueError] on a negative argument. *)
Definition sqrt (a : pynum) : result pynum :=
  match to_float a with
  | Raise e => Raise e
  | Ok f =>
      match f with
      | S754_finite true _ _ | S754_infinity true => Raise ValueError
      | _ => Ok (PFloat (SFsqrt prec emax f))
      end
  end.

(** The float literal [m]e[e10], correctly rounded. *)
Definition float_literal (m e10 : Z) : pynum :=
  let r :=
    if 0 <=? e10 then int_truediv (m * 10 ^ e10) 1
    else int_truediv m (10 ^ (- e10)) in
  match r with
  | Ok f => PFloat f
  | Raise _ => PFloat (S754_infinity (m <? 0))
  end.

(** *** The [statistics] module (CPython 3.11)

    [_sum] and [_ss] accumulate the data as exact fractions; a NaN or an
    infinity among the data replaces the exact total by the float sum of
    the non-finite items. *)

Inductive pytype : Set := TInt | TFloat.

Inductive total : Set :=
| Exact (q : Q)
| NonFinite (f : spec_float).

Definition _coerce (T : pytype) (x : pynum) : pytype :=
  match x with
  | PInt _ => T
  | PFloat _ => TFloat
  end.

Definition _exact_ratio (x : pynum) : total :=
  match x with
  | PInt n => Exact (inject_Z n)
  | PFloat f =>
      match as_integer_ratio f with
      | Ok q => Exact q
      | Raise _ => NonFinite f
      end
  end.

(** One more item added to a running total; [f] is the identity for the
    sum and the square for the sum of squares. *)
Definition accumulate (f : Q -> Q) (acc : total) (x : pynum) : total :=
  match acc, _exact_ratio x with
  | Exact a, Exact q => Exact (a + f q)%Q
  | Exact _, NonFinite y => NonFinite (SFadd prec emax (S754_zero false) y)
  | NonFinite a, Exact _ => NonFinite a
  | NonFinite a, NonFinite y => NonFinite (SFadd prec emax a y)
  end.

Definition exact_sum (f : Q -> Q) (data : list pynum) : total :=
  fold_left (accumulate f) data (Exact 0).

Definition count (data : list pynum) : Z := Z.of_nat (length data).

Definition _sum (data : list pynum) : pytype * total * Z :=
  (fold_left _coerce data TInt, exact_sum (fun q => q) data, count data).

Definition _convert (q : Q) (T : pytype) : result pynum :=
  let as_float :=
    match float_of_Fraction q with
    | Ok f => Ok (PFloat f)
    | Raise e => Raise e
    end in
  match T with
  | TInt => if Zpos (Qden q) =? 1 then Ok (PInt (Qnum q)) else as_float
  | TFloat => as_float
  end.

Definition mean (data : list pynum) : result pynum :=
  let '(T, tot, n) := _sum data in
  if n <? 1 then Raise StatisticsError
  else
    match tot with
    | Exact q => _convert (Qred (q / inject_Z n)%Q) T
    | NonFinite f => truediv (PFloat f) (PInt n)
    end.

(** The sum of square deviations from the mean, [(n*sxx - sx*sx) / n]. *)
Definition _ss (data : list pynum) : pytype * total * Z :=
  let n := count data in
  let ssd :=
    match exact_sum (fun q => q) data with
    | NonFinite f => NonFinite f
    | Exact sx =>
        match exact_sum (fun q => q * q)%Q data with
        | NonFinite f => NonFinite f
        | Exact sxx =>
            if n =? 0 then Exact 0
            else Exact (Qred ((inject_Z n * sxx - sx * sx) / inject_Z n)%Q)
        end
    end in
  (fold_left _coerce data TInt, ssd, n).

Definition bit_length (n : Z) : Z :=
  if n =? 0 then 0 else Z.log2 (Z.abs n) + 1.

Definition _sqrt_bit_width : Z := 2 * prec + 3.

(** Square root of [n/m] rounded to an integer, to odd. *)
Definition _integer_sqrt_of_frac_rto (n m : Z) : Z :=
  let a := Z.sqrt (n / m) in
  Z.lor a (if a * a * m =? n then 0 else 1).

Definition _float_sqrt_of_frac (n m : Z) : result spec_float :=
  let q := (bit_length n - bit_length m - _sqrt_bit_width) / 2 in
  if 0 <=? q then
    int_truediv (Z.shiftl (_integer_sqrt_of_frac_rto n (Z.shiftl m (2 * q))) q) 1
  else
    int_truediv (_integer_sqrt_of_frac_rto (Z.shiftl n (-2 * q)) m)
                (Z.shiftl 1 (- q)).

Definition stdev (data : list pynum) : result pynum :=
  let '(T, ss, n) := _ss data in
  if n <? 2 then Raise StatisticsError
  else
    match ss with
    | Exact q =>
        let mss := Qred (q / inject_Z (n - 1))%Q in
        match _float_sqrt_of_frac (Qnum mss) (Zpos (Qden mss)) with
        | Ok f => Ok (PFloat f)
        | Raise e => Raise e
        end
    | NonFinite _ => Raise AttributeError
    end.

(** *** [datetime.fromtimestamp(t, UTC)]

    A datetime is kept as its number of microseconds since the epoch.
    The seconds are rounded half-even to a microsecond; years 1 to 9999
    are representable, and a timestamp outside them raises (the kind of
    exception depends on the platform far outside the range). *)
Definition fromtimestamp (t : pynum) : result Z :=
  let in_range (us : Z) : result Z :=
    if (-62135596800000000 <=? us) && (us <? 253402300800000000)
    then Ok us else Raise ValueError in
  match t with
  | PInt n => in_range (n * 1000000)
  | PFloat S754_nan => Raise ValueError
  | PFloat (S754_infinity _) => Raise OverflowError
  | PFloat f => in_range (round_half_even (Qred (exact_value f * inject_Z 1000000)%Q))
  end.

#[global] Instance numbers : PyNumbers := {|
  num := pynum;
  py_int := PInt;
  py_float_literal := float_literal;
  py_eq := eq;
  py_gt := gt;
  py_abs := abs;
  py_round := round;
  py_sub := sub;
  py_add := add;
  py_truediv := truediv;
  py_float := float;
  math_sqrt := sqrt;
  statistics_mean := mean;
  statistics_stdev := stdev;
  datetime := Z;
  datetime_fromtimestamp := fromtimestamp
|}.

#[global] Instance power {L : Libm} : PyPower := {|
  py_pow2 := pow2
|}.

End Py64.

(** ** State and exceptions

    A computation over a mutable object of type [St]: it returns the
    object's new state together with a value or a raised exception. *)

Definition M (St A : Type) : Type := St -> St * result A.

Definition ret {St A} (a : A) : M St A := fun s => (s, Ok a).

Definition bind {St A B} (m : M St A) (k : A -> M St B) : M St B :=
  fun s =>
    match m s with
    | (s', Ok a) => k a s'
    | (s', Raise e) => (s', Raise e)
    end.

Definition raise {St A} (e : exn) : M St A := fun s => (s, Raise e).

(** the outcome of a pure operation *)
Definition lift {St A} (r : result A) : M St A := fun s => (s, r).

(** read an attribute, apply an update *)
Definition gets {St A} (f : St -> A) : M St A := fun s => (s, Ok (f s)).
Definition modify {St} (f : St -> St) : M St unit := fun s => (f s, Ok tt).

(** [try: body except Exception as e: handler e] *)
Definition try_except {St A} (body : M St A) (handler : exn -> M St A) : M St A :=
  fun s =>
    match body s with
    | (s', Ok a) => (s', Ok a)
    | (s', Raise e) => handler e s'
    end.

Declare Scope py_scope.
Delimit Scope py_scope with py.
Notation "x <- c ;; k" := (bind c (fun x => k))
  (at level 100, c at next level, right associativity) : py_scope.
Notation "c ;; k" := (bind c (fun _ => k))
  (at level 100, right associativity) : py_scope.

(** State after a call, and its outcome. *)
Definition state_after {St A} (m : M St A) (s : St) : St := fst (m s).
Definition outcome {St A} (m : M St A) (s : St) : result A := snd (m s).

(** [len(l)], [l.append(x)], [l.pop(0)] and [sum(l)] on a list of ints *)
Definition len {A} (l : list A) : Z := Z.of_nat (length l).
Definition append {A} (l : list A) (x : A) : list A := l ++ [x].
Definition pop0 {A} (l : list A) : result (list A) :=
  match l with
  | [] => Raise IndexError
  | _ :: l' => Ok l'
  end.
Definition py_sum (l : list Z) : Z := fold_left Z.add l 0.

(** ** helper.py: class AnomalyDetectionZscore *)

Section Detector.
Context {PN : PyNumbers}.

(** The instance attributes.  The [logger] argument of the constructor
    is stored and never read again, it is left out. *)
Record AnomalyDetectionZscore : Type := {
  _model_data : list num;
  _model_size : Z;
  _anomaly_list : list Z;
  _anomaly_list_size : Z;
  _anomaly_ratio : num;
  _anomaly : Z;
  _model_avg : num;
  _model_std_dev : num;
  _z_score : num;
  _z_score_thresh : num;
  _name : string
}.

Definition __init__ (name : string) (model_size anomaly_list_size : Z)
  : AnomalyDetectionZscore :=
  {| _model_data := [];
     _model_size := model_size;
     _anomaly_list := [];
     _anomaly_list_size := anomaly_list_size;
     _anomaly_ratio := py_float_literal 0 0;
     _anomaly := 0;
     _model_avg := py_float_literal 0 0;
     _model_std_dev := py_float_literal 0 0;
     _z_score := py_float_literal 0 0;
     _z_score_thresh := py_float_literal 0 0;
     _name := name |}.

(** Attribute assignments [self._x = v]. *)
Definition set_model_data (v : list num) (s : AnomalyDetectionZscore) :=
  {| _model_data := v; _model_size := _model_size s;
     _anomaly_list := _anomaly_list s; _anomaly_list_size := _anomaly_list_size s;
     _anomaly_ratio := _anomaly_ratio s; _anomaly := _anomaly s;
     _model_avg := _model_avg s; _model_std_dev := _model_std_dev s;
     _z_score := _z_score s; _z_score_thresh := _z_score_thresh s;
     _name := _name s |}.

Definition set_anomaly_list (v : list Z) (s : AnomalyDetectionZscore) :=
  {| _model_data := _model_data s; _model_size := _model_size s;
     _anomaly_list := v; _anomaly_list_size := _anomaly_list_size s;
     _anomaly_ratio := _anomaly_ratio s; _anomaly := _anomaly s;
     _model_avg := _model_avg s; _model_std_dev := _model_std_dev s;
     _z_score := _z_score s; _z_score_thresh := _z_score_thresh s;
     _name := _name s |}.

Definition set_anomaly_ratio (v : num) (s : AnomalyDetectionZscore) :=
  {| _model_data := _model_data s; _model_size := _model_size s;
     _anomaly_list := _anomaly_list s; _anomaly_list_size := _anomaly_list_size s;
     _anomaly_ratio := v; _anomaly := _anomaly s;
     _model_avg := _model_avg s; _model_std_dev := _model_std_dev s;
     _z_score := _z_score s; _z_score_thresh := _z_score_thresh s;
     _name := _name s |}.

Definition set_anomaly (v : Z) (s : AnomalyDetectionZscore) :=
  {| _model_data := _model_data s; _model_size := _model_size s;
     _anomaly_list := _anomaly_list s; _anomaly_list_size := _anomaly_list_size s;
     _anomaly_ratio := _anomaly_ratio s; _anomaly := v;
     _model_avg := _model_avg s; _model_std_dev := _model_std_dev s;
     _z_score := _z_score s; _z_score_thresh := _z_score_thresh s;
     _name := _name s |}.

Definition set_model_avg (v : num) (s : AnomalyDetectionZscore) :=
  {| _model_data := _model_data s; _model_size := _model_size s;
     _anomaly_list := _anomaly_list s; _anomaly_list_size := _anomaly_list_size s;
     _anomaly_ratio := _anomaly_ratio s; _anomaly := _anomaly s;
     _model_avg := v; _model_std_dev := _model_std_dev s;
     _z_score := _z_score s; _z_score_thresh := _z_score_thresh s;
     _name := _name s |}.

Definition set_model_std_dev (v : num) (s : AnomalyDetectionZscore) :=
  {| _model_data := _model_data s; _model_size := _model_size s;
     _anomaly_list := _anomaly_list s; _anomaly_list_size := _anomaly_list_size s;
     _anomaly_ratio := _anomaly_ratio s; _anomaly := _anomaly s;
     _model_avg := _model_avg s; _model_std_dev := v;
     _z_score := _z_score s; _z_score_thresh := _z_score_thresh s;
     _name := _name s |}.

Definition set_z_score (v : num) (s : AnomalyDetectionZscore) :=
  {| _model_data := _model_data s; _model_size := _model_size s;
     _anomaly_list := _anomaly_list s; _anomaly_list_size := _anomaly_list_size s;
     _anomaly_ratio := _anomaly_ratio s; _anomaly := _anomaly s;
     _model_avg := _model_avg s; _model_std_dev := _model_std_dev s;
     _z_score := v; _z_score_thresh := _z_score_thresh s;
     _name := _name s |}.

Definition set_z_score_thresh (v : num) (s : AnomalyDetectionZscore) :=
  {| _model_data := _model_data s; _model_size := _model_size s;
     _anomaly_list := _anomaly_list s; _anomaly_list_size := _anomaly_list_size s;
     _anomaly_ratio := _anomaly_ratio s; _anomaly := _anomaly s;
     _model_avg := _model_avg s; _model_std_dev := _model_std_dev s;
     _z_score := _z_score s; _z_score_thresh := v;
     _name := _name s |}.

Local Open Scope py_scope.

(** [logger.error(...)] inside helper.py.  The module imports only
    [statistics] and binds no global [logger] (the constructor's
    [logger] argument is a local name), so evaluating the name raises
    [NameError] before anything is logged. *)
Definition logger_error : M AnomalyDetectionZscore unit := raise NameError.

(** The read-only properties. *)
Definition anomaly (s : AnomalyDetectionZscore) : Z := _anomaly s.
Definition model_avg (s : AnomalyDetectionZscore) : num := _model_avg s.
Definition model_std_dev (s : AnomalyDetectionZscore) : num := _model_std_dev s.
Definition z_score (s : AnomalyDetectionZscore) : num := _z_score s.
Definition anomaly_ratio (s : AnomalyDetectionZscore) : num := _anomaly_ratio s.
Definition z_score_thresh (s : AnomalyDetectionZscore) : num := _z_score_thresh s.

(** The [z_score_thresh] setter. *)
Definition z_score_thresh_setter (z_score_threshold : num)
  : M AnomalyDetectionZscore unit :=
  if py_eq z_score_threshold (py_int 0) then
    logger_error ;;
    modify (set_z_score_thresh (py_float_literal 2 0))
  else
    modify (set_z_score_thresh z_score_threshold).

Definition reset_algorithm : M AnomalyDetectionZscore unit :=
  modify (set_model_data []) ;;
  modify (set_anomaly_list []) ;;
  modify (set_anomaly_ratio (py_float_literal 0 0)) ;;
  modify (set_anomaly 0) ;;
  modify (set_model_avg (py_float_literal 0 0)) ;;
  modify (set_model_std_dev (py_float_literal 0 0)) ;;
  modify (set_z_score (py_float_literal 0 0)).

Definition is_model_complete : M AnomalyDetectionZscore bool :=
  gets (fun s => len (_model_data s) =? _model_size s).

Definition calculate_anomaly_ratio : M AnomalyDetectionZscore unit :=
  try_except
    (complete <- is_model_complete ;;
     if complete then
       l <- gets _anomaly_list ;;
       size <- gets _anomaly_list_size ;;
       a <- gets _anomaly ;;
       if len l <? size then
         modify (set_anomaly_list (append l a))
       else
         l' <- lift (pop0 l) ;;
         modify (set_anomaly_list l') ;;
         modify (set_anomaly_list (append l' a)) ;;
         q <- lift (py_truediv (py_int (py_sum (append l' a))) (py_int size)) ;;
         r <- lift (py_round q 3) ;;
         modify (set_anomaly_ratio r)
     else ret tt)
    (fun e => logger_error).

Definition check_if_anomaly (value : num) : M AnomalyDetectionZscore unit :=
  try_except
    (complete <- is_model_complete ;;
     if complete then
       data <- gets _model_data ;;
       m <- lift (statistics_mean data) ;;
       avg <- lift (py_round (py_abs m) 3) ;;
       modify (set_model_avg avg) ;;
       sd <- lift (statistics_stdev data) ;;
       modify (set_model_std_dev (py_abs sd)) ;;
       (if py_eq (py_abs sd) (py_int 0)
        then modify (set_model_std_dev (py_float_literal 1 (-3)))
        else ret tt) ;;
       std_dev <- gets _model_std_dev ;;
       d <- lift (py_sub (py_abs value) avg) ;;
       q <- lift (py_truediv d std_dev) ;;
       z <- lift (py_round q 3) ;;
       modify (set_z_score z) ;;
       thresh <- gets z_score_thresh ;;
       if py_gt (py_abs z) thresh then
         modify (set_anomaly 1)
       else
         data' <- lift (pop0 data) ;;
         modify (set_model_data data') ;;
         modify (set_model_data (append data' value)) ;;
         modify (set_anomaly 0)
     else
       data <- gets _model_data ;;
       modify (set_model_data (append data value)))
    (fun e => logger_error).

End Detector.

(** ** app_fastapi.py: registry and sensor handlers *)

Section App.
Context {PN : PyNumbers} {PW : PyPower}.

Local Open Scope py_scope.

(** An [influxdb_client.Point]: measurement, tags, fields and time. *)
Record Point : Type := {
  measurement : string;
  tags : list (string * string);
  fields : list (string * num);
  time : datetime
}.

(** The module-level configuration and the attributes hung on [app]:
    the configured sensor names, one detector per name, and the points
    handed to [write_to_influx], oldest first. *)
Record App : Type := {
  Z_SCORE_THRESHOLD : num;
  MODEL_WINDOW_SIZE : Z;
  ANOMALY_LIST_SIZE : Z;
  generic_sensors_for_analytics : list string;
  vibration_sensors_for_analytics : list string;
  generic_analytics_objects : gmap string AnomalyDetectionZscore;
  vibration_analytics_objects : gmap string AnomalyDetectionZscore;
  influx : list Point
}.

Definition set_generic_analytics_objects
           (v : gmap string AnomalyDetectionZscore) (a : App) : App :=
  {| Z_SCORE_THRESHOLD := Z_SCORE_THRESHOLD a;
     MODEL_WINDOW_SIZE := MODEL_WINDOW_SIZE a;
     ANOMALY_LIST_SIZE := ANOMALY_LIST_SIZE a;
     generic_sensors_for_analytics := generic_sensors_for_analytics a;
     vibration_sensors_for_analytics := vibration_sensors_for_analytics a;
     generic_analytics_objects := v;
     vibration_analytics_objects := vibration_analytics_objects a;
     influx := influx a |}.

Definition set_vibration_analytics_objects
           (v : gmap string AnomalyDetectionZscore) (a : App) : App :=
  {| Z_SCORE_THRESHOLD := Z_SCORE_THRESHOLD a;
     MODEL_WINDOW_SIZE := MODEL_WINDOW_SIZE a;
     ANOMALY_LIST_SIZE := ANOMALY_LIST_SIZE a;
     generic_sensors_for_analytics := generic_sensors_for_analytics a;
     vibration_sensors_for_analytics := vibration_sensors_for_analytics a;
     generic_analytics_objects := generic_analytics_objects a;
     vibration_analytics_objects := v;
     influx := influx a |}.

Definition set_influx (v : list Point) (a : App) : App :=
  {| Z_SCORE_THRESHOLD := Z_SCORE_THRESHOLD a;
     MODEL_WINDOW_SIZE := MODEL_WINDOW_SIZE a;
     ANOMALY_LIST_SIZE := ANOMALY_LIST_SIZE a;
     generic_sensors_for_analytics := generic_sensors_for_analytics a;
     vibration_sensors_for_analytics := vibration_sensors_for_analytics a;
     generic_analytics_objects := generic_analytics_objects a;
     vibration_analytics_objects := vibration_analytics_objects a;
     influx := v |}.

(** The loops of [init_app]: one fresh detector per configured name, a
    repeated name getting a fresh detector again. *)
Definition create_analytics_objects (names : list string) (model_size list_size : Z)
  : gmap string AnomalyDetectionZscore :=
  fold_left (fun objs analytic_obj =>
               <[analytic_obj := __init__ analytic_obj model_size list_size]> objs)
            names ∅.

(** [init_app], given the environment's three tunables and the sensor
    lists of the two JSON files.  An empty list is not stored on [app],
    and the loop over the missing attribute stops the start-up with
    [AttributeError]. *)
Definition init_app (threshold : num) (model_size list_size : Z)
           (generic vibration : list string) : result App :=
  match generic, vibration with
  | [], _ | _, [] => Raise AttributeError
  | _, _ =>
      Ok {| Z_SCORE_THRESHOLD := threshold;
            MODEL_WINDOW_SIZE := model_size;
            ANOMALY_LIST_SIZE := list_size;
            generic_sensors_for_analytics := generic;
            vibration_sensors_for_analytics := vibration;
            generic_analytics_objects :=
              create_analytics_objects generic model_size list_size;
            vibration_analytics_objects :=
              create_analytics_objects vibration model_size list_size;
            influx := [] |}
  end.

(** [write_to_influx]: the point goes to the write API; a failure of the
    write is caught and logged there. *)
Definition write_to_influx (influx_measurement : string) (influx_point : Point)
  : M App unit :=
  modify (fun a => set_influx (append (influx a) influx_point) a).

(** A method call on [app.generic_analytics_objects[name]]: the object
    is mutated in place, also when the call raises. *)
Definition on_generic_object {A} (name : string)
           (m : M AnomalyDetectionZscore A) : M App A :=
  fun a =>
    match generic_analytics_objects a !! name with
    | None => (a, Raise KeyError)
    | Some o =>
        let '(o', r) := m o in
        (set_generic_analytics_objects (<[name := o']> (generic_analytics_objects a)) a, r)
    end.

Definition on_vibration_object {A} (name : string)
           (m : M AnomalyDetectionZscore A) : M App A :=
  fun a =>
    match vibration_analytics_objects a !! name with
    | None => (a, Raise KeyError)
    | Some o =>
        let '(o', r) := m o in
        (set_vibration_analytics_objects (<[name := o']> (vibration_analytics_objects a)) a, r)
    end.

(** [datetime.fromtimestamp(int(data["TimeStamp"]) / 1000, UTC)] *)
Definition point_time (timestamp : Z) : M App datetime :=
  t <- lift (py_truediv (py_int timestamp) (py_int 1000)) ;;
  lift (datetime_fromtimestamp t).

(** [round(float(x), 4)] *)
Definition round4_float (x : num) : M App num :=
  f <- lift (py_float x) ;;
  lift (py_round f 4).

(** The analytics fields shared by the two enriched records. *)
Definition analytics_fields (o : AnomalyDetectionZscore)
  : M App (list (string * num)) :=
  ratio <- round4_float (anomaly_ratio o) ;;
  avg <- round4_float (model_avg o) ;;
  z <- round4_float (z_score o) ;;
  thresh <- round4_float (z_score_thresh o) ;;
  ret [("anomaly"%string, py_int (anomaly o));
       ("anomaly_ratio"%string, ratio);
       ("model_avg"%string, avg);
       ("z_score"%string, z);
       ("z_score_thresh"%string, thresh)].

(** The body of a well-formed POST to [/generic-sensor]: every key the
    handler reads is present, the sensor value is a number, and the
    line and machine names are given as their [str()]. *)
Record SensorData : Type := {
  SensorName : string;
  SensorValue : num;
  LineName : string;
  MachineName : string;
  TimeStamp : Z
}.

Definition sensor_tags (line machine sensor : string) : list (string * string) :=
  [("line_name"%string, line);
   ("machine_name"%string, machine);
   ("sensor_name"%string, sensor)].

(** A handler returns a pair of a message and a number, 201 or 400; the
    model keeps the number.  The routes declare no status code of their
    own, so the pair is the body that FastAPI serialises. *)
Definition sensor_data (data : SensorData) : M App Z :=
  let sensor_name := SensorName data in
  let sensor_value := SensorValue data in
  threshold <- gets Z_SCORE_THRESHOLD ;;
  names <- gets generic_sensors_for_analytics ;;
  point <-
    (if bool_decide (sensor_name ∈ names) then
       on_generic_object sensor_name (z_score_thresh_setter threshold) ;;
       on_generic_object sensor_name (check_if_anomaly sensor_value) ;;
       on_generic_object sensor_name calculate_anomaly_ratio ;;
       rounded <- lift (py_round sensor_value 4) ;;
       value <- lift (py_float rounded) ;;
       o <- on_generic_object sensor_name (gets (fun o => o)) ;;
       analytics <- analytics_fields o ;;
       t <- point_time (TimeStamp data) ;;
       ret {| measurement := "SingleSensorAnalytics";
              tags := sensor_tags (LineName data) (MachineName data) sensor_name;
              fields := ("value"%string, value) :: analytics;
              time := t |}
     else
       rounded <- lift (py_round sensor_value 4) ;;
       value <- lift (py_float rounded) ;;
       t <- point_time (TimeStamp data) ;;
       ret {| measurement := "GenericSensor";
              tags := sensor_tags (LineName data) (MachineName data) sensor_name;
              fields := [("value"%string, value)];
              time := t |}) ;;
  write_to_influx (measurement point) point ;;
  ret 201.

(** The body of a well-formed POST to [/vibration-sensor]. *)
Record VibrationData : Type := {
  VibSensorName : string;
  VibAccelTotRmsX : num;
  VibAccelTotRmsY : num;
  VibAccelTotRmsZ : num;
  VibLineName : string;
  VibMachineName : string;
  VibTimeStamp : Z
}.

(** [round(float(math.sqrt(x ** 2 + y ** 2 + z ** 2)), 5)] *)
Definition vib_total_rms (x y z : num) : result num :=
  match py_pow2 x with Raise e => Raise e | Ok xx =>
  match py_pow2 y with Raise e => Raise e | Ok yy =>
  match py_add xx yy with Raise e => Raise e | Ok xy =>
  match py_pow2 z with Raise e => Raise e | Ok zz =>
  match py_add xy zz with Raise e => Raise e | Ok total =>
  match math_sqrt total with Raise e => Raise e | Ok root =>
  match py_float root with Raise e => Raise e | Ok f =>
  py_round f 5
  end end end end end end end.

Definition vibration_sensor_data (data : VibrationData) : M App Z :=
  let sensor_name := VibSensorName data in
  let vib_accel_tot_rms_x := VibAccelTotRmsX data in
  let vib_accel_tot_rms_y := VibAccelTotRmsY data in
  let vib_accel_tot_rms_z := VibAccelTotRmsZ data in
  threshold <- gets Z_SCORE_THRESHOLD ;;
  names <- gets vibration_sensors_for_analytics ;;
  (if bool_decide (sensor_name ∈ names) then
     vib_total_rms <-
       lift (vib_total_rms vib_accel_tot_rms_x vib_accel_tot_rms_y vib_accel_tot_rms_z) ;;
     on_vibration_object sensor_name (z_score_thresh_setter threshold) ;;
     on_vibration_object sensor_name (check_if_anomaly vib_total_rms) ;;
     on_vibration_object sensor_name calculate_anomaly_ratio ;;
     rx <- lift (py_round vib_accel_tot_rms_x 4) ;;
     ry <- lift (py_round vib_accel_tot_rms_y 4) ;;
     rz <- lift (py_round vib_accel_tot_rms_z 4) ;;
     rtotal <- lift (py_round vib_total_rms 4) ;;
     o <- on_vibration_object sensor_name (gets (fun o => o)) ;;
     analytics <- analytics_fields o ;;
     t <- point_time (VibTimeStamp data) ;;
     write_to_influx "VibSensor"
       {| measurement := "VibSensor";
          tags := sensor_tags (VibLineName data) (VibMachineName data) sensor_name;
          fields := [("vib_accel_rms_x"%string, rx);
                     ("vib_accel_rms_y"%string, ry);
                     ("vib_accel_rms_z"%string, rz);
                     ("vib_accel_rms_total"%string, rtotal)] ++ analytics;
          time := t |}
   else ret tt) ;;
  ret 201.

(** The three calls a handler makes on the detector of an event. *)
Definition detector_pipeline (threshold value : num) : M AnomalyDetectionZscore unit :=
  (z_score_thresh_setter threshold ;;
   check_if_anomaly value ;;
   calculate_anomaly_ratio)%py.

End App.

(** ** Traces of method calls on one detector *)

Section Traces.
Context {PN : PyNumbers} {PW : PyPower}.

Inductive call : Type :=
| Evaluate (value : num)       (* check_if_anomaly(value) *)
| UpdateAnomalyRatio           (* calculate_anomaly_ratio() *)
| SetThreshold (t : num)       (* z_score_thresh = t *)
| Reset.                       (* reset_algorithm() *)

(** The object after one call; the caller observes it whether or not
    the call raised. *)
Definition step (s : AnomalyDetectionZscore) (c : call) : AnomalyDetectionZscore :=
  match c with
  | Evaluate value => state_after (check_if_anomaly value) s
  | UpdateAnomalyRatio => state_after calculate_anomaly_ratio s
  | SetThreshold t => state_after (z_score_thresh_setter t) s
  | Reset => state_after reset_algorithm s
  end.

Definition run_calls (s : AnomalyDetectionZscore) (calls : list call)
  : AnomalyDetectionZscore :=
  fold_left step calls s.

(** The two window bounds. *)
Definition windows_bounded (s : AnomalyDetectionZscore) : Prop :=
  len (_model_data s) <= _model_size s /\
  len (_anomaly_list s) <= _anomaly_list_size s.

(** ACTIVE and BUILDING *)
Definition active (s : AnomalyDetectionZscore) : Prop :=
  len (_model_data s) = _model_size s.
Definition building (s : AnomalyDetectionZscore) : Prop :=
  len (_model_data s) < _model_size s.


(** The specification's wording of the statistics of one evaluation:
    the mean is the magnitude of the baseline mean rounded to three
    decimals, the standard deviation is the magnitude of the baseline
    standard deviation with zero replaced by 0.001, and the z-score is
    [(|value| - mean) / std_dev] rounded to three decimals. *)
Definition spec_statistics (data : list num) (value : num)
  : result (num * num * num) :=
  match statistics_mean data with Raise e => Raise e | Ok m =>
  match py_round (py_abs m) 3 with Raise e => Raise e | Ok avg =>
  match statistics_stdev data with Raise e => Raise e | Ok sd =>
  let std_dev :=
    if py_eq (py_abs sd) (py_int 0) then py_float_literal 1 (-3) else py_abs sd in
  match py_sub (py_abs value) avg with Raise e => Raise e | Ok d =>
  match py_truediv d std_dev with Raise e => Raise e | Ok q =>
  match py_round q 3 with Raise e => Raise e | Ok z =>
  Ok (avg, std_dev, z)
  end end end end end end.

(** The specification's wording of the ACTIVE step from [s] to [s']:
    the three statistics are stored; above the threshold the reading is
    an anomaly and the window is left alone, otherwise it is not an
    anomaly, the oldest reading is evicted and the new one appended. *)
Definition spec_evaluate_active
           (s : AnomalyDetectionZscore) (value : num) (s' : AnomalyDetectionZscore)
  : Prop :=
  exists avg std_dev z,
    spec_statistics (_model_data s) value = Ok (avg, std_dev, z) /\
    _model_avg s' = avg /\
    _model_std_dev s' = std_dev /\
    _z_score s' = z /\
    if py_gt (py_abs z) (_z_score_thresh s)
    then _anomaly s' = 1 /\ _model_data s' = _model_data s
    else _anomaly s' = 0 /\
         _model_data s' = append (tl (_model_data s)) value /\
         len (_model_data s') = len (_model_data s).

(** The attributes after an ACTIVE step that raised nothing. *)
Definition store_statistics (avg std_dev z : num) (s : AnomalyDetectionZscore)
  : AnomalyDetectionZscore :=
  set_z_score z (set_model_std_dev std_dev (set_model_avg avg s)).

(** The window after an evaluation that found no anomaly: the oldest
    reading has left and [value] has joined. *)
Definition slide (value : num) (data : list num) : list num :=
  append (tl data) value.

(** [value] lies on the mean of the window [data]: the statistics of
    the window can be computed, and [|value| - mean == 0] for the mean
    as the detector keeps it. *)
Definition on_baseline_mean (data : list num) (value : num) : bool :=
  match spec_statistics data value with
  | Ok (avg, _, _) =>
      match py_sub (py_abs value) avg with
      | Ok d => py_eq d (py_int 0)
      | Raise _ => false
      end
  | Raise _ => false
  end.


End Traces.

(** ** Concrete detectors and events on CPython's numbers *)

Module Scenario.

Abbreviation Detector := (@AnomalyDetectionZscore Py64.numbers).
Abbreviation PInt := Py64.PInt.
Abbreviation PFloat := Py64.PFloat.

(** The float literals that occur below. *)
Definition f0_0 : Py64.pynum := Py64.float_literal 0 0.         (* 0.0 *)
Definition f0_001 : Py64.pynum := Py64.float_literal 1 (-3).    (* 0.001 *)
Definition f0_5 : Py64.pynum := Py64.float_literal 5 (-1).      (* 0.5 *)
Definition f2_0 : Py64.pynum := Py64.float_literal 2 0.         (* 2.0 *)
Definition f5_0 : Py64.pynum := Py64.float_literal 5 0.         (* 5.0 *)
Definition f10_0 : Py64.pynum := Py64.float_literal 10 0.       (* 10.0 *)
Definition f98_0 : Py64.pynum := Py64.float_literal 98 0.       (* 98.0 *)
Definition f90000_0 : Py64.pynum := Py64.float_literal 90000 0. (* 90000.0 *)

(** A fresh detector with the given sizes and the threshold set to 2.0. *)
Definition fresh (model_size anomaly_list_size : Z) : Detector :=
  state_after (z_score_thresh_setter f2_0)
              (__init__ "sensor" model_size anomaly_list_size).

(** Scenario A: three equal readings on a fresh detector of model size 3. *)
Definition after_three (x : Py64.pynum) : Detector :=
  run_calls (fresh 3 25) [Evaluate x; Evaluate x; Evaluate x].

(** A full baseline [10, 10, 10], an empty anomaly window of size 2. *)
Definition ratio_start : Detector :=
  run_calls (fresh 3 2) [Evaluate (PInt 10); Evaluate (PInt 10); Evaluate (PInt 10)].

(** A C library whose [pow] is correctly rounded and reports an overflow
    and an underflow to zero in [errno]. *)
#[global] Instance correctly_rounded_libm : Py64.Libm := {|
  Py64.pow_2 x :=
    let r := SFmul Py64.prec Py64.emax x x in
    (r, if Py64.is_infinity r || Py64.is_zero r then Py64.ERANGE else Py64.ENone)
|}.

(** The service as [init_app] leaves it with threshold 2.0, both sizes
    as given, and one generic and one vibration sensor configured. *)
Definition demo_app : @App Py64.numbers :=
  {| Z_SCORE_THRESHOLD := f2_0;
     MODEL_WINDOW_SIZE := 3;
     ANOMALY_LIST_SIZE := 2;
     generic_sensors_for_analytics := ["temperature"%string];
     vibration_sensors_for_analytics := ["spindle"%string];
     generic_analytics_objects := {[ "temperature"%string := __init__ "temperature" 3 2 ]};
     vibration_analytics_objects := {[ "spindle"%string := __init__ "spindle" 3 2 ]};
     influx := [] |}.

Definition axes_3_4_0 : @VibrationData Py64.numbers :=
  {| VibSensorName := "spindle";
     VibAccelTotRmsX := PInt 3;
     VibAccelTotRmsY := PInt 4;
     VibAccelTotRmsZ := PInt 0;
     VibLineName := "line 1";
     VibMachineName := "lathe";
     VibTimeStamp := 1700000000123 |}.

Definition unconfigured_body : @SensorData Py64.numbers :=
  {| SensorName := "pressure";
     SensorValue := Py64.float_literal 123456789 (-5);
     LineName := "line 1";
     MachineName := "lathe";
     TimeStamp := 1700000000123 |}.

Definition unconfigured_vibration_body : @VibrationData Py64.numbers :=
  {| VibSensorName := "gearbox";
     VibAccelTotRmsX := PInt 3;
     VibAccelTotRmsY := PInt 4;
     VibAccelTotRmsZ := PInt 0;
     VibLineName := "line 1";
     VibMachineName := "lathe";
     VibTimeStamp := 1700000000123 |}.

End Scenario.

(** ** Calls and their outcomes *)

Section MoreTraces.
Context {PN : PyNumbers}.

(** The method a call stands for. *)
Definition run_call (c : call) : M AnomalyDetectionZscore unit :=
  match c with
  | Evaluate value => check_if_anomaly value
  | UpdateAnomalyRatio => calculate_anomaly_ratio
  | SetThreshold t => z_score_thresh_setter t
  | Reset => reset_algorithm
  end.

(** The readings a sequence of calls hands to [check_if_anomaly], in
    the order of the calls. *)
Definition evaluated_values (calls : list call) : list num :=
  flat_map (fun c => match c with Evaluate value => [value] | _ => [] end) calls.

(** The outcome of every call of a sequence, in order. *)
Fixpoint call_outcomes (s : AnomalyDetectionZscore) (calls : list call)
  : list (result unit) :=
  match calls with
  | [] => []
  | c :: calls' => outcome (run_call c) s :: call_outcomes (step s c) calls'
  end.

Definition is_reset (c : call) : bool :=
  match c with Reset => true | _ => false end.

(** A flag is the int 0 or the int 1. *)
Definition is_flag (a : Z) : Prop := a = 0 \/ a = 1.

(** What one event does to the detector of its sensor in either handler
    once the threshold is set: the reading is evaluated and the anomaly
    ratio advanced. *)
Definition evaluate_and_update (value : num) : M AnomalyDetectionZscore unit :=
  (check_if_anomaly value ;; calculate_anomaly_ratio)%py.

End MoreTraces.

(** ** Sequences of events *)

Section MoreApp.
Context {PN : PyNumbers}.

(** The service after a sequence of POSTs to [/generic-sensor], a request
    that raised included: the next request finds whatever the failed one
    left. *)
Definition handle_sensor_events (events : list SensorData) (a : App) : App :=
  fold_left (fun a data => state_after (sensor_data data) a) events a.

(** A detector after the pipelines of a sequence of readings. *)
Definition feed_all (threshold : num) (values : list num) (o : AnomalyDetectionZscore)
  : AnomalyDetectionZscore :=
  fold_left (fun o value => state_after (detector_pipeline threshold value) o) values o.

(** The values of the events of one sensor, in order. *)
Definition values_of (name : string) (events : list SensorData) : list num :=
  map SensorValue (filter (fun data => SensorName data = name) events).

(** The names of the five analytics fields of an enriched point. *)
Definition analytics_field_names : list string :=
  ["anomaly"; "anomaly_ratio"; "model_avg"; "z_score"; "z_score_thresh"]%string.

End MoreApp.

(** ** The [model_completeness] property on CPython's numbers *)

Module Completeness.

(** [int(x)] on a float: truncation towards zero. *)
Definition int_of_float (f : spec_float) : result Z :=
  match f with
  | S754_nan => Raise ValueError
  | S754_infinity _ => Raise OverflowError
  | S754_zero _ => Ok 0
  | S754_finite s m e =>
      Ok (cond_Zopp s (if 0 <=? e then Zpos m * 2 ^ e else Zpos m / 2 ^ (- e)))
  end.

(** [int(100 * len(self._model_data) / self._model_size)] *)
Definition model_completeness (s : @AnomalyDetectionZscore Py64.numbers) : result Z :=
  match Py64.int_truediv (100 * len (_model_data s)) (_model_size s) with
  | Ok f => int_of_float f
  | Raise e => Raise e
  end.

End Completeness.

(** ** The handlers on JSON bodies with missing keys

    A body is a JSON object whose keys may be missing; a key that is
    present holds a value of the type the handler expects.  [None] as a
    request stands for a parsed body that Python takes as false (the
    empty object or list, [null], zero).  A request without a body, or
    with one that is not JSON, fails in [request.json()] before the
    handler's own code runs and is not covered. *)

Section Requests.
Context {PN : PyNumbers} {PW : PyPower}.

Local Open Scope py_scope.

(** [data[key]]: [KeyError] when the key is missing. *)
Definition getitem {A} (v : option A) : M App A :=
  match v with
  | Some x => ret x
  | None => raise KeyError
  end.

(** [logger.error(...)] inside app_fastapi.py, where [logger] is the
    module's own logger: the message is logged and nothing else
    happens. *)
Definition app_logger_error : M App unit := ret tt.

Record SensorBody : Type := {
  body_SensorName : option string;
  body_SensorValue : option num;
  body_LineName : option string;
  body_MachineName : option string;
  body_TimeStamp : option Z
}.

(** The handler of [/generic-sensor] from the parsed body on. *)
Definition sensor_data_request (request : option SensorBody) : M App Z :=
  match request with
  | None => ret 400
  | Some data =>
      match body_SensorName data, body_SensorValue data with
      | Some sensor_name, Some sensor_value =>
          threshold <- gets Z_SCORE_THRESHOLD ;;
          names <- gets generic_sensors_for_analytics ;;
          point <-
            (if bool_decide (sensor_name ∈ names) then
               on_generic_object sensor_name (z_score_thresh_setter threshold) ;;
               on_generic_object sensor_name (check_if_anomaly sensor_value) ;;
               on_generic_object sensor_name calculate_anomaly_ratio ;;
               line <- getitem (body_LineName data) ;;
               machine <- getitem (body_MachineName data) ;;
               rounded <- lift (py_round sensor_value 4) ;;
               value <- lift (py_float rounded) ;;
               o <- on_generic_object sensor_name (gets (fun o => o)) ;;
               analytics <- analytics_fields o ;;
               timestamp <- getitem (body_TimeStamp data) ;;
               t <- point_time timestamp ;;
               ret {| measurement := "SingleSensorAnalytics";
                      tags := sensor_tags line machine sensor_name;
                      fields := ("value"%string, value) :: analytics;
                      time := t |}
             else
               line <- getitem (body_LineName data) ;;
               machine <- getitem (body_MachineName data) ;;
               rounded <- lift (py_round sensor_value 4) ;;
               value <- lift (py_float rounded) ;;
               timestamp <- getitem (body_TimeStamp data) ;;
               t <- point_time timestamp ;;
               ret {| measurement := "GenericSensor";
                      tags := sensor_tags line machine sensor_name;
                      fields := [("value"%string, value)];
                      time := t |}) ;;
          write_to_influx (measurement point) point ;;
          ret 201
      | _, _ =>
          app_logger_error ;;
          ret 201
      end
  end.

Record VibrationBody : Type := {
  body_VibSensorName : option string;
  body_VibAccelTotRmsX : option num;
  body_VibAccelTotRmsY : option num;
  body_VibAccelTotRmsZ : option num;
  body_VibLineName : option string;
  body_VibMachineName : option string;
  body_VibTimeStamp : option Z
}.

(** The handler of [/vibration-sensor] from the parsed body on. *)
Definition vibration_sensor_data_request (request : option VibrationBody) : M App Z :=
  match request with
  | None => ret 400
  | Some data =>
      match body_VibSensorName data, body_VibAccelTotRmsX data,
            body_VibAccelTotRmsY data, body_VibAccelTotRmsZ data with
      | Some sensor_name, Some vib_accel_tot_rms_x,
        Some vib_accel_tot_rms_y, Some vib_accel_tot_rms_z =>
          threshold <- gets Z_SCORE_THRESHOLD ;;
          names <- gets vibration_sensors_for_analytics ;;
          (if bool_decide (sensor_name ∈ names) then
             vib_total_rms <-
               lift (vib_total_rms vib_accel_tot_rms_x vib_accel_tot_rms_y
                                   vib_accel_tot_rms_z) ;;
             on_vibration_object sensor_name (z_score_thresh_setter threshold) ;;
             on_vibration_object sensor_name (check_if_anomaly vib_total_rms) ;;
             on_vibration_object sensor_name calculate_anomaly_ratio ;;
             line <- getitem (body_VibLineName data) ;;
             machine <- getitem (body_VibMachineName data) ;;
             rx <- lift (py_round vib_accel_tot_rms_x 4) ;;
             ry <- lift (py_round vib_accel_tot_rms_y 4) ;;
             rz <- lift (py_round vib_accel_tot_rms_z 4) ;;
             rtotal <- lift (py_round vib_total_rms 4) ;;
             o <- on_vibration_object sensor_name (gets (fun o => o)) ;;
             analytics <- analytics_fields o ;;
             timestamp <- getitem (body_VibTimeStamp data) ;;
             t <- point_time timestamp ;;
             write_to_influx "VibSensor"
               {| measurement := "VibSensor";
                  tags := sensor_tags line machine sensor_name;
                  fields := [("vib_accel_rms_x"%string, rx);
                             ("vib_accel_rms_y"%string, ry);
                             ("vib_accel_rms_z"%string, rz);
                             ("vib_accel_rms_total"%string, rtotal)] ++ analytics;
                  time := t |}
           else ret tt) ;;
          ret 201
      | _, _, _, _ =>
          app_logger_error ;;
          ret 201
      end
  end.

(** The bodies that have every key. *)
Definition sensor_body (data : SensorData) : SensorBody :=
  {| body_SensorName := Some (SensorName data);
     body_SensorValue := Some (SensorValue data);
     body_LineName := Some (LineName data);
     body_MachineName := Some (MachineName data);
     body_TimeStamp := Some (TimeStamp data) |}.

Definition vibration_body (data : VibrationData) : VibrationBody :=
  {| body_VibSensorName := Some (VibSensorName data);
     body_VibAccelTotRmsX := Some (VibAccelTotRmsX data);
     body_VibAccelTotRmsY := Some (VibAccelTotRmsY data);
     body_VibAccelTotRmsZ := Some (VibAccelTotRmsZ data);
     body_VibLineName := Some (VibLineName data);
     body_VibMachineName := Some (VibMachineName data);
     body_VibTimeStamp := Some (VibTimeStamp data) |}.

(** A key read inside the [try] of the handler is missing. *)
Definition lacks_required_key (data : SensorBody) : Prop :=
  body_SensorName data = None \/ body_SensorValue data = None.

Definition vibration_lacks_required_key (data : VibrationBody) : Prop :=
  body_VibSensorName data = None \/ body_VibAccelTotRmsX data = None \/
  body_VibAccelTotRmsY data = None \/ body_VibAccelTotRmsZ data = None.

(** A key that only the point needs is missing. *)
Definition lacks_point_key (data : SensorBody) : Prop :=
  body_LineName data = None \/ body_MachineName data = None \/
  body_TimeStamp data = None.

End Requests.

(** ** The handler of [/generic-state] on CPython's numbers *)

Module StateHandler.

Local Open Scope py_scope.

(** [int(x)] on a number *)
Definition py_int_of (x : Py64.pynum) : result Z :=
  match x with
  | Py64.PInt n => Ok n
  | Py64.PFloat f => Completeness.int_of_float f
  end.

Record StateBody : Type := {
  body_StateName : option string;
  body_StateValue : option Py64.pynum;
  body_StateLineName : option string;
  body_StateMachineName : option string;
  body_StateTimeStamp : option Z
}.

Definition state_data_request (request : option StateBody) : M (@App Py64.numbers) Z :=
  match request with
  | None => ret 400
  | Some data =>
      match body_StateName data, body_StateValue data with
      | Some state_name, Some state_value =>
          line <- getitem (body_StateLineName data) ;;
          machine <- getitem (body_StateMachineName data) ;;
          value <- lift (py_int_of state_value) ;;
          timestamp <- getitem (body_StateTimeStamp data) ;;
          t <- point_time timestamp ;;
          write_to_influx "GenericState"
            {| measurement := "GenericState";
               tags := [("line_name"%string, line);
                        ("machine_name"%string, machine);
                        ("state_name"%string, state_name)];
               fields := [("value"%string, Py64.PInt value)];
               time := t |} ;;
          ret 201
      | _, _ =>
          app_logger_error ;;
          ret 201
      end
  end.

End StateHandler.

(** ** More concrete detectors, services and requests *)

Module Scenario2.

Import Scenario.

(** Three readings of mixed kinds. *)
Definition mixed_readings : list Py64.pynum :=
  [PInt 7; Py64.float_literal 25 (-1); PInt 1000].

(** A full baseline [1, 2, 3] with threshold 2.0. *)
Definition spread_start : Detector :=
  run_calls (fresh 3 25) [Evaluate (PInt 1); Evaluate (PInt 2); Evaluate (PInt 3)].

(** A full baseline with a small spread around 2, threshold 2.0. *)
Definition near_2 : Detector :=
  run_calls (fresh 3 25)
    [Evaluate (Py64.float_literal 19999 (-4)); Evaluate (Py64.float_literal 20001 (-4));
     Evaluate (Py64.float_literal 2 0)].

(** The baseline [1, 2, 3] with the threshold -1. *)
Definition negative_threshold : Detector :=
  state_after (z_score_thresh_setter (PInt (-1))) spread_start.

(** Axes given as floats. *)
Definition axes_3_4_0_floats : @VibrationData Py64.numbers :=
  {| VibSensorName := "spindle";
     VibAccelTotRmsX := Py64.float_literal 3 0;
     VibAccelTotRmsY := Py64.float_literal 4 0;
     VibAccelTotRmsZ := f0_0;
     VibLineName := "line 1";
     VibMachineName := "lathe";
     VibTimeStamp := 1700000000123 |}.

(** A window one reading short of full. *)
Definition almost_full : Detector :=
  run_calls (fresh 3 2) [Evaluate (PInt 10); Evaluate (PInt 10)].

(** A full baseline with the full anomaly window [1, 0], and with the
    full anomaly window [1, 1]. *)
Definition window_1_0 : Detector :=
  run_calls ratio_start
    [Evaluate (PInt 100); UpdateAnomalyRatio; Evaluate (PInt 10); UpdateAnomalyRatio].

Definition window_1_1 : Detector :=
  run_calls ratio_start
    [Evaluate (PInt 100); UpdateAnomalyRatio; Evaluate (PInt 100); UpdateAnomalyRatio].

(** A full baseline on a detector whose anomaly-list size is 0. *)
Definition no_anomaly_list : Detector :=
  run_calls (fresh 3 0) [Evaluate (PInt 10); Evaluate (PInt 10); Evaluate (PInt 10)].

Definition some_calls : list (@call Py64.numbers) :=
  [Evaluate (PInt 100); UpdateAnomalyRatio; SetThreshold (PInt 0);
   Evaluate (PInt 10); UpdateAnomalyRatio; SetThreshold (PInt 3)].

(** Events of the configured sensor [temperature] and of a sensor that is
    not configured. *)
Definition temperature_event (value : Py64.pynum) : @SensorData Py64.numbers :=
  {| SensorName := "temperature";
     SensorValue := value;
     LineName := "line 1";
     MachineName := "lathe";
     TimeStamp := 1700000000123 |}.

Definition temperature_21_5 : @SensorData Py64.numbers :=
  temperature_event (Py64.float_literal 215 (-1)).

Definition mixed_events : list (@SensorData Py64.numbers) :=
  [temperature_21_5; unconfigured_body; temperature_event (PInt 22)].

(** The service of [demo_app] with the threshold configured as 0.0. *)
Definition zero_threshold_app : @App Py64.numbers :=
  {| Z_SCORE_THRESHOLD := f0_0;
     MODEL_WINDOW_SIZE := 3;
     ANOMALY_LIST_SIZE := 2;
     generic_sensors_for_analytics := ["temperature"%string];
     vibration_sensors_for_analytics := ["spindle"%string];
     generic_analytics_objects := {[ "temperature"%string := __init__ "temperature" 3 2 ]};
     vibration_analytics_objects := {[ "spindle"%string := __init__ "spindle" 3 2 ]};
     influx := [] |}.

(** The service of [demo_app] once the detector of [temperature] has
    the full baseline [10, 10, 10]. *)
Definition trained_app : @App Py64.numbers :=
  {| Z_SCORE_THRESHOLD := f2_0;
     MODEL_WINDOW_SIZE := 3;
     ANOMALY_LIST_SIZE := 2;
     generic_sensors_for_analytics := ["temperature"%string];
     vibration_sensors_for_analytics := ["spindle"%string];
     generic_analytics_objects := {[ "temperature"%string := ratio_start ]};
     vibration_analytics_objects := {[ "spindle"%string := __init__ "spindle" 3 2 ]};
     influx := [] |}.

(** Bodies with keys missing. *)
Definition body_without_value : @SensorBody Py64.numbers :=
  {| body_SensorName := Some "temperature"%string;
     body_SensorValue := None;
     body_LineName := Some "line 1"%string;
     body_MachineName := Some "lathe"%string;
     body_TimeStamp := Some 1700000000123 |}.

Definition vibration_body_without_z : @VibrationBody Py64.numbers :=
  {| body_VibSensorName := Some "spindle"%string;
     body_VibAccelTotRmsX := Some (PInt 3);
     body_VibAccelTotRmsY := Some (PInt 4);
     body_VibAccelTotRmsZ := None;
     body_VibLineName := Some "line 1"%string;
     body_VibMachineName := Some "lathe"%string;
     body_VibTimeStamp := Some 1700000000123 |}.

Definition body_without_line : @SensorBody Py64.numbers :=
  {| body_SensorName := Some "temperature"%string;
     body_SensorValue := Some (PInt 21);
     body_LineName := None;
     body_MachineName := Some "lathe"%string;
     body_TimeStamp := Some 1700000000123 |}.

End Scenario2.

(** * Properties *)

Ltac unfold_py :=
  unfold check_if_anomaly, calculate_anomaly_ratio, z_score_thresh_setter,
    reset_algorithm, is_model_complete, logger_error, try_except, bind, lift,
    gets, modify, ret, raise, state_after, outcome, z_score_thresh in *.

(** Case analysis on the next outcome the computation in the goal inspects. *)
Ltac next_case :=
  match goal with
  | |- context [match ?x with _ => _ end] =>
      lazymatch x with
      | context [match _ with _ => _ end] => fail
      | _ => destruct x eqn:?
      end
  end.

Ltac py_cases := unfold_py; cbn; repeat (next_case; cbn).

Lemma len_append {A} (l : list A) (x : A) : len (append l x) = len l + 1.
Proof. unfold len, append. rewrite length_app. cbn. lia. Qed.

Lemma len_pop0 {A} (l l' : list A) : pop0 l = Ok l' -> len l = len l' + 1.
Proof. destruct l; cbn; intros H; inversion H; subst. unfold len. cbn. lia. Qed.

Lemma len_nonneg {A} (l : list A) : 0 <= len l.
Proof. unfold len. lia. Qed.

(** Turns the tests on lengths met along a run into arithmetic facts. *)
Ltac len_solve :=
  repeat match goal with
    | H : pop0 _ = Ok _ |- _ => apply len_pop0 in H
    | H : (_ =? _) = true |- _ => apply Z.eqb_eq in H
    | H : (_ =? _) = false |- _ => apply Z.eqb_neq in H
    | H : (_ <? _) = true |- _ => apply Z.ltb_lt in H
    | H : (_ <? _) = false |- _ => apply Z.ltb_ge in H
    end;
  rewrite ?len_append; cbn; try lia.

Section DetectorFacts.
Context {PN : PyNumbers}.

(** What [check_if_anomaly] never touches. *)
Lemma check_if_anomaly_frame (value : num) (s : AnomalyDetectionZscore) :
  let s' := state_after (check_if_anomaly value) s in
  _model_size s' = _model_size s /\
  _anomaly_list s' = _anomaly_list s /\
  _anomaly_list_size s' = _anomaly_list_size s /\
  _anomaly_ratio s' = _anomaly_ratio s /\
  _z_score_thresh s' = _z_score_thresh s /\
  _name s' = _name s.
Proof. py_cases; auto 10. Qed.

(** The baseline window keeps its length once it is full. *)
Lemma check_if_anomaly_active_len (value : num) (s : AnomalyDetectionZscore) :
  active s ->
  len (_model_data (state_after (check_if_anomaly value) s)) = len (_model_data s).
Proof.
  unfold active. intros Hact. py_cases; len_solve.
Qed.

(** What [calculate_anomaly_ratio] never touches. *)
Lemma calculate_anomaly_ratio_frame (s : AnomalyDetectionZscore) :
  let s' := state_after calculate_anomaly_ratio s in
  _model_data s' = _model_data s /\
  _model_size s' = _model_size s /\
  _anomaly_list_size s' = _anomaly_list_size s /\
  _anomaly s' = _anomaly s /\
  _model_avg s' = _model_avg s /\
  _model_std_dev s' = _model_std_dev s /\
  _z_score s' = _z_score s /\
  _z_score_thresh s' = _z_score_thresh s /\
  _name s' = _name s.
Proof. py_cases; auto 12. Qed.

Lemma check_if_anomaly_bounded (value : num) (s : AnomalyDetectionZscore) :
  windows_bounded s -> windows_bounded (state_after (check_if_anomaly value) s).
Proof.
  unfold windows_bounded. intros [Hm Ha].
  pose proof (check_if_anomaly_frame value s) as (Hsz & Hl & Hls & _).
  cbn zeta in *. rewrite Hsz, Hl, Hls. split; [|exact Ha].
  destruct (Z.eq_dec (len (_model_data s)) (_model_size s)) as [Hfull|Hpart].
  - rewrite check_if_anomaly_active_len by exact Hfull. exact Hm.
  - revert Hm Hpart. clear. py_cases; len_solve.
Qed.

Lemma calculate_anomaly_ratio_bounded (s : AnomalyDetectionZscore) :
  windows_bounded s -> windows_bounded (state_after calculate_anomaly_ratio s).
Proof.
  unfold windows_bounded. intros [Hm Ha].
  pose proof (calculate_anomaly_ratio_frame s) as (Hd & Hsz & Hls & _).
  cbn zeta in *. rewrite Hd, Hsz, Hls. split; [exact Hm|].
  revert Ha. clear. py_cases; len_solve.
Qed.

Lemma z_score_thresh_setter_bounded (t : num) (s : AnomalyDetectionZscore) :
  windows_bounded s -> windows_bounded (state_after (z_score_thresh_setter t) s).
Proof. unfold windows_bounded. py_cases; auto. Qed.

Lemma reset_algorithm_bounded (s : AnomalyDetectionZscore) :
  windows_bounded s -> windows_bounded (state_after reset_algorithm s).
Proof.
  unfold windows_bounded. intros [Hm Ha].
  pose proof (len_nonneg (_model_data s)). pose proof (len_nonneg (_anomaly_list s)).
  py_cases. unfold len. cbn. lia.
Qed.

Lemma step_bounded (s : AnomalyDetectionZscore) (c : call) :
  windows_bounded s -> windows_bounded (step s c).
Proof.
  destruct c; cbn [step].
  - apply check_if_anomaly_bounded.
  - apply calculate_anomaly_ratio_bounded.
  - apply z_score_thresh_setter_bounded.
  - apply reset_algorithm_bounded.
Qed.

Lemma run_calls_bounded (calls : list call) (s : AnomalyDetectionZscore) :
  windows_bounded s -> windows_bounded (run_calls s calls).
Proof.
  revert s. induction calls as [|c calls IH]; intros s Hs; cbn.
  - exact Hs.
  - apply IH. now apply step_bounded.
Qed.

(** The sizes given to the constructor never change. *)
Lemma step_sizes (s : AnomalyDetectionZscore) (c : call) :
  _model_size (step s c) = _model_size s /\
  _anomaly_list_size (step s c) = _anomaly_list_size s.
Proof. destruct c; cbn [step]; py_cases; auto. Qed.

Lemma run_calls_sizes (calls : list call) (s : AnomalyDetectionZscore) :
  _model_size (run_calls s calls) = _model_size s /\
  _anomaly_list_size (run_calls s calls) = _anomaly_list_size s.
Proof.
  revert s. induction calls as [|c calls IH]; intros s; [cbn; auto|].
  change (run_calls s (c :: calls)) with (run_calls (step s c) calls).
  destruct (IH (step s c)) as [-> ->]. apply step_sizes.
Qed.

(** C5 (amended): on a detector constructed with a model size and an
    anomaly-list size that are not negative, after every sequence of
    [check_if_anomaly], [calculate_anomaly_ratio], threshold-setter and
    [reset_algorithm] calls, whether or not some of them raised, the
    baseline window holds at most [model_size] readings and the anomaly
    window at most [anomaly_list_size] flags. *)
Theorem windows_bounded_after_calls
        (name : string) (model_size anomaly_list_size : Z) (calls : list call) :
  0 <= model_size ->
  0 <= anomaly_list_size ->
  let s := run_calls (__init__ name model_size anomaly_list_size) calls in
  len (_model_data s) <= model_size /\
  len (_anomaly_list s) <= anomaly_list_size.
Proof.
  intros Hm Ha s.
  assert (Hb : windows_bounded s).
  { apply run_calls_bounded. unfold windows_bounded, len. cbn. lia. }
  destruct (run_calls_sizes calls (__init__ name model_size anomaly_list_size))
    as [Hs1 Hs2].
  cbn in Hs1, Hs2. unfold windows_bounded in Hb. fold s in Hs1, Hs2.
  rewrite Hs1, Hs2 in Hb. exact Hb.
Qed.

(** C7: [reset_algorithm] raises nothing; it empties the baseline window
    and the anomaly window, puts the anomaly ratio, the anomaly flag,
    the mean, the standard deviation and the z-score back to the zeros
    the constructor assigns, and leaves the name, the two sizes and the
    threshold as they were.  This holds in every state of a detector,
    reachable or not. *)
Theorem reset_algorithm_clears (s : AnomalyDetectionZscore) :
  outcome reset_algorithm s = Ok tt /\
  let s' := state_after reset_algorithm s in
  _model_data s' = [] /\
  _anomaly_list s' = [] /\
  _anomaly_ratio s' = py_float_literal 0 0 /\
  _anomaly s' = 0 /\
  _model_avg s' = py_float_literal 0 0 /\
  _model_std_dev s' = py_float_literal 0 0 /\
  _z_score s' = py_float_literal 0 0 /\
  _name s' = _name s /\
  _model_size s' = _model_size s /\
  _anomaly_list_size s' = _anomaly_list_size s /\
  _z_score_thresh s' = _z_score_thresh s /\
  s' = set_z_score_thresh (_z_score_thresh s)
         (__init__ (_name s) (_model_size s) (_anomaly_list_size s)).
Proof. repeat split. Qed.

(** C10: while the baseline is still building, that is while the window
    holds fewer than [model_size] readings, [calculate_anomaly_ratio]
    changes no attribute of the detector (no flag is appended, the ratio
    stays) and raises nothing. *)
Theorem calculate_anomaly_ratio_building_noop (s : AnomalyDetectionZscore) :
  building s -> calculate_anomaly_ratio s = (s, Ok tt).
Proof.
  unfold building. intros Hb. unfold_py.
  destruct (len (_model_data s) =? _model_size s) eqn:Hc; [|reflexivity].
  apply Z.eqb_eq in Hc. lia.
Qed.

(** *** The anomaly-ratio window *)

(** With a full baseline and room left in the anomaly window, the
    current flag is appended and nothing else happens. *)
Lemma calculate_anomaly_ratio_append (s : AnomalyDetectionZscore) :
  active s ->
  len (_anomaly_list s) < _anomaly_list_size s ->
  calculate_anomaly_ratio s =
    (set_anomaly_list (append (_anomaly_list s) (_anomaly s)) s, Ok tt).
Proof.
  unfold active. intros Hact Hroom. unfold_py.
  apply Z.eqb_eq in Hact. rewrite Hact.
  apply Z.ltb_lt in Hroom. rewrite Hroom. reflexivity.
Qed.

Lemma check_if_anomaly_active (value : num) (s : AnomalyDetectionZscore) :
  active s -> active (state_after (check_if_anomaly value) s).
Proof.
  intros Hact. unfold active.
  rewrite check_if_anomaly_active_len by exact Hact.
  pose proof (check_if_anomaly_frame value s) as (-> & _). exact Hact.
Qed.

(** C3 (amended): take a detector with a full baseline, an anomaly
    window of size 2 that is still empty and an anomaly ratio of 0.0.
    After a first evaluation that leaves the anomaly flag at 1 and its
    [calculate_anomaly_ratio] call, the anomaly window is [1] and the
    ratio is still 0.0; after a second evaluation that leaves the flag
    at 0 and its [calculate_anomaly_ratio] call, the anomaly window is
    [1, 0] and the ratio is still 0.0: the second call only appends, and
    the ratio is recomputed only by a call that finds the window already
    full.  Neither [calculate_anomaly_ratio] call raises. *)
Theorem anomaly_ratio_lags_window (s : AnomalyDetectionZscore) (v1 v2 : num) :
  active s ->
  _anomaly_list s = [] ->
  _anomaly_list_size s = 2 ->
  _anomaly_ratio s = py_float_literal 0 0 ->
  let s1 := state_after (check_if_anomaly v1) s in
  let s2 := state_after calculate_anomaly_ratio s1 in
  let s3 := state_after (check_if_anomaly v2) s2 in
  let s4 := state_after calculate_anomaly_ratio s3 in
  _anomaly s1 = 1 ->
  _anomaly s3 = 0 ->
  (_anomaly_list s2 = [1] /\ _anomaly_ratio s2 = py_float_literal 0 0 /\
   outcome calculate_anomaly_ratio s1 = Ok tt) /\
  (_anomaly_list s4 = [1; 0] /\ _anomaly_ratio s4 = py_float_literal 0 0 /\
   outcome calculate_anomaly_ratio s3 = Ok tt).
Proof.
  intros Hact Hl Hsz Hr s1 s2 s3 s4 Hflag1 Hflag3.
  pose proof (check_if_anomaly_frame v1 s) as (_ & Hl1 & Hsz1 & Hr1 & _).
  pose proof (check_if_anomaly_active v1 s Hact) as Hact1.
  fold s1 in Hl1, Hsz1, Hr1, Hact1. cbn zeta in *.
  assert (E2 : calculate_anomaly_ratio s1
               = (set_anomaly_list (append (_anomaly_list s1) (_anomaly s1)) s1, Ok tt)).
  { apply calculate_anomaly_ratio_append; [exact Hact1|].
    rewrite Hl1, Hsz1, Hl, Hsz. unfold len. cbn. lia. }
  assert (Hs2 : s2 = set_anomaly_list [1] s1).
  { unfold s2, state_after. rewrite E2. cbn. now rewrite Hl1, Hl, Hflag1. }
  pose proof (check_if_anomaly_frame v2 s2) as (_ & Hl3 & Hsz3 & Hr3 & _).
  assert (Hact2 : active s2) by (rewrite Hs2; exact Hact1).
  pose proof (check_if_anomaly_active v2 s2 Hact2) as Hact3.
  fold s3 in Hl3, Hsz3, Hr3, Hact3. cbn zeta in *.
  assert (E4 : calculate_anomaly_ratio s3
               = (set_anomaly_list (append (_anomaly_list s3) (_anomaly s3)) s3, Ok tt)).
  { apply calculate_anomaly_ratio_append; [exact Hact3|].
    rewrite Hl3, Hsz3, Hs2. cbn. rewrite Hsz1, Hsz. unfold len. cbn. lia. }
  split.
  - rewrite Hs2. cbn. rewrite Hr1, Hr. unfold outcome. rewrite E2. auto.
  - unfold s4, state_after, outcome. rewrite E4. cbn.
    rewrite Hl3, Hr3, Hflag3, Hs2. cbn. rewrite Hr1, Hr. auto.
Qed.

(** *** The ACTIVE step *)

Lemma check_if_anomaly_active_result
      (s : AnomalyDetectionZscore) (value x : num) (rest : list num)
      (avg std_dev z : num) :
  active s ->
  _model_data s = x :: rest ->
  spec_statistics (x :: rest) value = Ok (avg, std_dev, z) ->
  check_if_anomaly value s =
    (if py_gt (py_abs z) (_z_score_thresh s)
     then set_anomaly 1 (store_statistics avg std_dev z s)
     else set_anomaly 0
            (set_model_data (append rest value) (store_statistics avg std_dev z s)),
     Ok tt).
Proof.
  unfold active, spec_statistics. intros Hact Hdata Hstat.
  apply Z.eqb_eq in Hact.
  unfold_py. cbn. rewrite Hact. cbn. rewrite Hdata in *. clear Hact.
  destruct (statistics_mean (x :: rest)) as [m|]; [|discriminate]. cbn.
  destruct (py_round (py_abs m) 3) as [avg'|]; [|discriminate]. cbn.
  destruct (statistics_stdev (x :: rest)) as [sd|]; [|discriminate]. cbn.
  destruct (py_eq (py_abs sd) (py_int 0)); cbn;
    (destruct (py_sub (py_abs value) avg') as [d|]; [|discriminate]); cbn;
    match goal with
    | |- context [py_truediv d ?sd'] =>
        destruct (py_truediv d sd') as [q|]; [|discriminate]
    end; cbn;
    (destruct (py_round q 3) as [z'|]; [|discriminate]); cbn;
    inversion Hstat; subst;
    destruct (py_gt (py_abs z) (_z_score_thresh s)); reflexivity.
Qed.

(** C4 (amended): for every detector whose baseline window is full and
    holds at least two readings, and every value on which
    [statistics.mean], [statistics.stdev] and the z-score arithmetic
    raise nothing, [check_if_anomaly] returns normally and performs the
    ACTIVE step as specified: it stores the rounded magnitude of the
    mean, the magnitude of the standard deviation with 0 replaced by
    0.001 and the rounded z-score; above the threshold it sets the
    anomaly flag and leaves the window alone, otherwise it clears the
    flag, evicts the oldest reading and appends the value, the window
    keeping its length. *)
Theorem check_if_anomaly_active_step (s : AnomalyDetectionZscore) (value : num) :
  active s ->
  2 <= _model_size s ->
  is_ok (spec_statistics (_model_data s) value) = true ->
  outcome (check_if_anomaly value) s = Ok tt /\
  spec_evaluate_active s value (state_after (check_if_anomaly value) s).
Proof.
  intros Hact Hsize Hok.
  destruct (_model_data s) as [|x rest] eqn:Hdata.
  { unfold active, len in Hact. rewrite Hdata in Hact. cbn in Hact. lia. }
  destruct (spec_statistics (x :: rest) value) as [[[avg std_dev] z]|] eqn:Hstat;
    [|discriminate].
  unfold outcome, state_after, spec_evaluate_active.
  rewrite (check_if_anomaly_active_result s value x rest avg std_dev z Hact Hdata Hstat).
  split; [reflexivity|].
  exists avg, std_dev, z. rewrite Hdata, Hstat. cbn [fst].
  destruct (py_gt (py_abs z) (_z_score_thresh s)); cbn;
    repeat split; try assumption.
  rewrite len_append. unfold len. cbn. lia.
Qed.

End DetectorFacts.

(** * Routing in the handlers *)

Ltac unfold_app :=
  unfold sensor_data, vibration_sensor_data, on_generic_object, on_vibration_object,
    analytics_fields, round4_float, point_time, write_to_influx in *.

Section AppFacts.
Context {PN : PyNumbers} {PW : PyPower}.

(** C6: a well-formed generic-sensor body (every key present, a value
    that [float(round(value, 4))] accepts, a timestamp that
    [datetime.fromtimestamp] accepts) whose sensor name is not
    configured for analytics yields exactly one point, of measurement
    [GenericSensor], with the three tags and the single field [value];
    no detector is touched and the function returns its pair with 201.
    A well-formed vibration body whose sensor name is not configured
    for analytics yields no point at all and changes nothing; the
    function returns its pair with 201. *)
Theorem unconfigured_sensor_routing
        (a : App) (data : SensorData) (vib : VibrationData)
        (rounded value seconds : num) (t : datetime) :
  SensorName data ∉ generic_sensors_for_analytics a ->
  py_round (SensorValue data) 4 = Ok rounded ->
  py_float rounded = Ok value ->
  py_truediv (py_int (TimeStamp data)) (py_int 1000) = Ok seconds ->
  datetime_fromtimestamp seconds = Ok t ->
  VibSensorName vib ∉ vibration_sensors_for_analytics a ->
  sensor_data data a =
    (set_influx
       (append (influx a)
               {| measurement := "GenericSensor";
                  tags := [("line_name"%string, LineName data);
                           ("machine_name"%string, MachineName data);
                           ("sensor_name"%string, SensorName data)];
                  fields := [("value"%string, value)];
                  time := t |}) a,
     Ok 201) /\
  vibration_sensor_data vib a = (a, Ok 201).
Proof.
  intros Hname Hround Hfloat Hdiv Htime Hvib. split.
  - unfold_app. unfold bind, gets, lift, modify, ret.
    rewrite bool_decide_eq_false_2 by exact Hname.
    rewrite Hround, Hfloat, Hdiv, Htime. reflexivity.
  - unfold_app. unfold bind, gets, lift, modify, ret.
    rewrite bool_decide_eq_false_2 by exact Hvib. reflexivity.
Qed.



End AppFacts.

(** * The service on CPython's numbers *)

Module OnPy64.

Import Scenario.

Example init_app_demo :
  init_app f2_0 3 2 ["temperature"%string] ["spindle"%string] = Ok demo_app.
Proof. reflexivity. Qed.

(** *** The threshold setter *)

(** C1: assigning 0 (the int, or the float 0.0) to [z_score_thresh]
    raises [NameError] out of the setter and leaves every attribute,
    the threshold included, as it was: the fallback to 2.0 is never
    reached. *)
Theorem z_score_thresh_zero_raises (s : Detector) :
  z_score_thresh_setter (PInt 0) s = (s, Raise NameError) /\
  z_score_thresh_setter f0_0 s = (s, Raise NameError).
Proof. split; reflexivity. Qed.

(** On a fresh detector the threshold then still reads 0.0, not 2.0. *)
Example z_score_thresh_zero_on_fresh :
  let s := state_after (z_score_thresh_setter (PInt 0)) (__init__ "sensor" 25 25) in
  z_score_thresh s = f0_0 /\ Py64.eq (z_score_thresh s) f2_0 = false.
Proof. vm_compute. auto. Qed.

(** Any other threshold, a negative one included, is stored as given. *)
Lemma z_score_thresh_nonzero_stored (t : Py64.pynum) (s : Detector) :
  Py64.eq t (PInt 0) = false ->
  z_score_thresh_setter t s = (set_z_score_thresh t s, Ok tt).
Proof.
  intros Ht. unfold z_score_thresh_setter. cbn [py_eq py_int Py64.numbers].
  now rewrite Ht.
Qed.

Example z_score_thresh_negative_stored :
  z_score_thresh (state_after (z_score_thresh_setter (PInt (-3))) (fresh 3 2))
  = PInt (-3).
Proof. reflexivity. Qed.

(** *** Scenario A: building the baseline, then classifying *)

(** After the three readings the window is full, and the mean is still
    the constructor's 0.0: it is not 10. *)
Lemma scenario_A_mean_not_yet_computed :
  let s := after_three (PInt 10) in
  len (_model_data s) = _model_size s /\
  model_avg s = f0_0 /\
  model_avg s <> PInt 10 /\
  Py64.eq (model_avg s) (PInt 10) = false /\
  Py64.eq (model_std_dev s) f0_001 = false.
Proof. vm_compute. repeat split; discriminate. Qed.

(** C2 (amended): on a fresh detector with model size 3 and threshold
    2.0, after evaluating 10, 10, 10 the window is [10, 10, 10] and
    full, and the mean, the standard deviation and the z-score are
    still 0.0.  The next evaluation of 10 raises nothing and sets the
    mean to 10, the standard deviation to 0.001 and the z-score to 0.0,
    with the reading not an anomaly and the window again [10, 10, 10].
    A further evaluation of 100 raises nothing and sets the z-score to
    90000.0 and the anomaly flag, the mean staying 10, the standard
    deviation 0.001 and the window [10, 10, 10].  The same holds with
    the readings given as the floats 10.0 and 100.0, the mean then
    being 10.0. *)
Theorem scenario_A :
  (let s3 := after_three (PInt 10) in
   let s4 := state_after (check_if_anomaly (PInt 10)) s3 in
   let s5 := state_after (check_if_anomaly (PInt 100)) s4 in
   (_model_data s3 = [PInt 10; PInt 10; PInt 10] /\
    len (_model_data s3) = _model_size s3 /\
    model_avg s3 = f0_0 /\ model_std_dev s3 = f0_0 /\ z_score s3 = f0_0) /\
   (outcome (check_if_anomaly (PInt 10)) s3 = Ok tt /\
    model_avg s4 = PInt 10 /\ model_std_dev s4 = f0_001 /\
    z_score s4 = f0_0 /\ anomaly s4 = 0 /\
    _model_data s4 = [PInt 10; PInt 10; PInt 10]) /\
   (outcome (check_if_anomaly (PInt 100)) s4 = Ok tt /\
    model_avg s5 = PInt 10 /\ model_std_dev s5 = f0_001 /\
    z_score s5 = f90000_0 /\ anomaly s5 = 1 /\
    _model_data s5 = [PInt 10; PInt 10; PInt 10])) /\
  (let s3 := after_three f10_0 in
   let s4 := state_after (check_if_anomaly f10_0) s3 in
   let s5 := state_after (check_if_anomaly (Py64.float_literal 100 0)) s4 in
   (_model_data s3 = [f10_0; f10_0; f10_0] /\
    len (_model_data s3) = _model_size s3 /\
    model_avg s3 = f0_0 /\ model_std_dev s3 = f0_0 /\ z_score s3 = f0_0) /\
   (outcome (check_if_anomaly f10_0) s3 = Ok tt /\
    model_avg s4 = f10_0 /\ model_std_dev s4 = f0_001 /\
    z_score s4 = f0_0 /\ anomaly s4 = 0 /\
    _model_data s4 = [f10_0; f10_0; f10_0]) /\
   (outcome (check_if_anomaly (Py64.float_literal 100 0)) s4 = Ok tt /\
    model_avg s5 = f10_0 /\ model_std_dev s5 = f0_001 /\
    z_score s5 = f90000_0 /\ anomaly s5 = 1 /\
    _model_data s5 = [f10_0; f10_0; f10_0])).
Proof. vm_compute. repeat split. Qed.

(** *** Scenario C: the anomaly ratio *)

(** An anomaly (100) and then a normal reading (10), each followed by
    [calculate_anomaly_ratio]: the anomaly window is [1, 0] and the
    ratio is 0.0, not 0.5. *)
Lemma scenario_C_ratio_not_recomputed :
  let s := run_calls ratio_start
             [Evaluate (PInt 100); UpdateAnomalyRatio;
              Evaluate (PInt 10); UpdateAnomalyRatio] in
  _anomaly_list s = [1; 0] /\
  anomaly_ratio s = f0_0 /\
  anomaly_ratio s <> f0_5 /\
  Py64.eq (anomaly_ratio s) f0_5 = false.
Proof. vm_compute. repeat split; discriminate. Qed.

(** The ratio moves with the third call, the first that finds the
    window full. *)
Example scenario_C_third_call :
  let s := run_calls ratio_start
             [Evaluate (PInt 100); UpdateAnomalyRatio;
              Evaluate (PInt 10); UpdateAnomalyRatio;
              Evaluate (PInt 100); UpdateAnomalyRatio] in
  _anomaly_list s = [0; 1] /\ anomaly_ratio s = f0_5.
Proof. vm_compute. split; reflexivity. Qed.

Lemma anomaly_ratio_lags_window_witness :
  active ratio_start /\
  (let s1 := state_after (check_if_anomaly (PInt 100)) ratio_start in
   let s2 := state_after calculate_anomaly_ratio s1 in
   let s3 := state_after (check_if_anomaly (PInt 10)) s2 in
   let s4 := state_after calculate_anomaly_ratio s3 in
   (_anomaly_list s2 = [1] /\ _anomaly_ratio s2 = f0_0 /\
    outcome calculate_anomaly_ratio s1 = Ok tt) /\
   (_anomaly_list s4 = [1; 0] /\ _anomaly_ratio s4 = f0_0 /\
    outcome calculate_anomaly_ratio s3 = Ok tt)).
Proof.
  split; [reflexivity|].
  apply (anomaly_ratio_lags_window ratio_start (PInt 100) (PInt 10));
    reflexivity.
Defined.

(** *** Statistics of a constant window of ints *)

Lemma Qred_inject_Z (v : Z) : Qred (inject_Z v) = inject_Z v.
Proof.
  unfold Qred, inject_Z.
  generalize (Z.ggcd_gcd v 1) (Z.ggcd_correct_divisors v 1).
  destruct (Z.ggcd v 1) as (g, (a, b)). cbn [fst snd].
  rewrite Z.gcd_1_r. intros Hg [Ha Hb]. subst g.
  rewrite Z.mul_1_l in Ha, Hb. now subst a b.
Qed.

Lemma coerce_replicate_int (n : nat) (v : Z) :
  fold_left Py64._coerce (replicate n (PInt v)) Py64.TInt = Py64.TInt.
Proof. induction n as [|n IH]; cbn; auto. Qed.

Lemma exact_sum_replicate_int (f : Q -> Q) (n : nat) (v : Z) (a : Q) :
  exists q,
    fold_left (Py64.accumulate f) (replicate n (PInt v)) (Py64.Exact a)
    = Py64.Exact q /\
    (q == a + inject_Z (Z.of_nat n) * f (inject_Z v))%Q.
Proof.
  revert a. induction n as [|n IH]; intros a.
  - exists a. split; [reflexivity|]. cbn [Z.of_nat]. unfold inject_Z. ring.
  - cbn [replicate fold_left Py64.accumulate Py64._exact_ratio].
    destruct (IH (a + f (inject_Z v))%Q) as (q & Hq & Heq).
    exists q. split; [exact Hq|]. rewrite Heq.
    rewrite Nat2Z.inj_succ. unfold Z.succ. rewrite inject_Z_plus.
    change (inject_Z 1) with 1%Q. ring.
Qed.

Lemma count_replicate (n : nat) (x : Py64.pynum) :
  Py64.count (replicate n x) = Z.of_nat n.
Proof. unfold Py64.count. now rewrite length_replicate. Qed.

Lemma inject_Z_pos_nonzero (z : Z) : 0 < z -> ~ (inject_Z z == 0)%Q.
Proof.
  intros Hz H. unfold Qeq in H. cbn in H. lia.
Qed.

(** The mean of [n >= 1] copies of the int [v] is the int [v]. *)
Lemma mean_replicate_int (n : nat) (v : Z) :
  (1 <= n)%nat -> Py64.mean (replicate n (PInt v)) = Ok (PInt v).
Proof.
  intros Hn. unfold Py64.mean, Py64._sum, Py64.exact_sum.
  rewrite coerce_replicate_int, count_replicate.
  destruct (exact_sum_replicate_int (fun q => q) n v 0) as (q & -> & Hq).
  destruct (Z.ltb_spec (Z.of_nat n) 1) as [|_]; [lia|].
  rewrite (Qred_complete _ (inject_Z v)).
  - rewrite Qred_inject_Z. reflexivity.
  - rewrite Hq. field. apply inject_Z_pos_nonzero. lia.
Qed.

(** The standard deviation of [n >= 2] copies of the int [v] is 0.0. *)
Lemma stdev_replicate_int (n : nat) (v : Z) :
  (2 <= n)%nat -> Py64.stdev (replicate n (PInt v)) = Ok f0_0.
Proof.
  intros Hn. unfold Py64.stdev, Py64._ss, Py64.exact_sum.
  rewrite count_replicate.
  destruct (exact_sum_replicate_int (fun q => q) n v 0) as (sx & -> & Hsx).
  destruct (exact_sum_replicate_int (fun q => q * q)%Q n v 0) as (sxx & -> & Hsxx).
  destruct (Z.eqb_spec (Z.of_nat n) 0) as [|_]; [lia|].
  destruct (Z.ltb_spec (Z.of_nat n) 2) as [|_]; [lia|].
  assert (Hssd : Qred ((inject_Z (Z.of_nat n) * sxx - sx * sx)
                       / inject_Z (Z.of_nat n)) = 0%Q).
  { rewrite (Qred_complete _ 0%Q); [reflexivity|].
    rewrite Hsx, Hsxx. field. apply inject_Z_pos_nonzero. lia. }
  rewrite Hssd.
  rewrite (Qred_complete (0 / inject_Z (Z.of_nat n - 1)) 0%Q); [reflexivity|].
  field. apply inject_Z_pos_nonzero. lia.
Qed.

(** *** The window bounds *)

(** A negative model size: the window is never full, every reading is
    appended, and the bound is broken from the first observation on. *)
Lemma negative_model_size_unbounded :
  let s0 : Detector := __init__ "sensor" (-1) 25 in
  let s1 := run_calls s0 [Evaluate (PInt 10)] in
  let s2 := run_calls s0 [Evaluate (PInt 10); UpdateAnomalyRatio; Evaluate (PInt 10)] in
  ~ len (_model_data s0) <= _model_size s0 /\
  ~ len (_model_data s1) <= _model_size s1 /\
  len (_model_data s2) = 2 /\ _model_size s2 = -1.
Proof. vm_compute. repeat split; intros H; apply H; reflexivity. Qed.

Lemma windows_bounded_after_calls_witness :
  let s : Detector :=
    run_calls (__init__ "sensor" 3 2)
      [Evaluate (PInt 10); UpdateAnomalyRatio; Evaluate (PInt 10); UpdateAnomalyRatio;
       Evaluate (PInt 10); UpdateAnomalyRatio; Evaluate (PInt 100); UpdateAnomalyRatio;
       Evaluate (PInt 11); UpdateAnomalyRatio; Reset; Evaluate (PInt 12)] in
  len (_model_data s) <= 3 /\ len (_anomaly_list s) <= 2.
Proof.
  apply (windows_bounded_after_calls "sensor" 3 2); lia.
Defined.

Lemma calculate_anomaly_ratio_building_noop_witness :
  let s : Detector := run_calls (fresh 3 2) [Evaluate (PInt 10); Evaluate (PInt 10)] in
  calculate_anomaly_ratio s = (s, Ok tt).
Proof.
  apply calculate_anomaly_ratio_building_noop. unfold building. vm_compute. reflexivity.
Defined.

(** *** The ACTIVE step *)

(** A model size of 1: the window [10] is full, [statistics.stdev]
    raises on a single reading, and the step is not the specified one:
    the standard deviation and the z-score are not computed, the window
    does not slide, and [NameError] leaves [check_if_anomaly]. *)
Lemma single_reading_window_no_step :
  let s : Detector := run_calls (fresh 1 25) [Evaluate (PInt 10)] in
  let s' := state_after (check_if_anomaly (PInt 12)) s in
  active s /\
  ~ spec_evaluate_active s (PInt 12) s' /\
  outcome (check_if_anomaly (PInt 12)) s = Raise NameError /\
  model_std_dev s' = f0_0 /\ _model_data s' = [PInt 10].
Proof.
  cbv zeta. split; [reflexivity|]. split.
  - intros (avg & std_dev & z & Hstat & _). vm_compute in Hstat. discriminate.
  - vm_compute. repeat split.
Qed.

(** In CPython the statistics of a window raise unless it holds two
    readings at least. *)
Lemma spec_statistics_two_readings (data : list Py64.pynum) (value : Py64.pynum) :
  is_ok (spec_statistics data value) = true -> 2 <= len data.
Proof.
  unfold spec_statistics.
  cbn [statistics_mean statistics_stdev py_round py_abs Py64.numbers].
  destruct (Py64.mean data) as [m|]; [|discriminate].
  destruct (Py64.round (Py64.abs m) 3); [|discriminate].
  unfold Py64.stdev, Py64._ss.
  destruct (Z.ltb_spec (Py64.count data) 2) as [|Hge]; [discriminate|].
  intros _. exact Hge.
Qed.

Lemma check_if_anomaly_active_step_witness :
  let s : Detector :=
    run_calls (fresh 3 25) [Evaluate (PInt 1); Evaluate (PInt 2); Evaluate (PInt 3)] in
  outcome (check_if_anomaly (PInt 4)) s = Ok tt /\
  spec_evaluate_active s (PInt 4) (state_after (check_if_anomaly (PInt 4)) s).
Proof.
  apply check_if_anomaly_active_step.
  - reflexivity.
  - vm_compute. discriminate.
  - vm_compute. reflexivity.
Defined.

(** *** Feeding one value again and again *)

(** A baseline [1, 2, 3] has the standard deviation 1.0.  The reading
    100 gets the z-score 98.0 and is an anomaly, and as anomalies do not
    enter the window it gets the same verdict each time it is fed. *)
Lemma repeated_value_nonzero_z_score :
  let s : Detector :=
    run_calls (fresh 3 25) [Evaluate (PInt 1); Evaluate (PInt 2); Evaluate (PInt 3)] in
  let s1 := state_after (check_if_anomaly (PInt 100)) s in
  let s2 := state_after (check_if_anomaly (PInt 100)) s1 in
  active s /\
  statistics_stdev (_model_data s) = Ok (Py64.float_literal 1 0) /\
  (z_score s1 = f98_0 /\ Py64.eq (z_score s1) (PInt 0) = false /\ anomaly s1 = 1) /\
  (z_score s2 = f98_0 /\ Py64.eq (z_score s2) (PInt 0) = false /\ anomaly s2 = 1).
Proof. vm_compute. repeat split. Qed.

(** A reading that is not an anomaly changes the baseline it is
    compared with: 2 fed twice to [1, 2, 3] has the z-score 0.0 and
    then -0.577. *)
Example repeated_value_moving_baseline :
  let s : Detector :=
    run_calls (fresh 3 25) [Evaluate (PInt 1); Evaluate (PInt 2); Evaluate (PInt 3)] in
  let s1 := state_after (check_if_anomaly (PInt 2)) s in
  let s2 := state_after (check_if_anomaly (PInt 2)) s1 in
  z_score s1 = f0_0 /\ anomaly s1 = 0 /\
  z_score s2 = Py64.float_literal (-577) (-3) /\ anomaly s2 = 0 /\
  _model_data s2 = [PInt 3; PInt 2; PInt 2].
Proof. vm_compute. repeat split. Qed.

Lemma spec_statistics_constant_window (n : nat) (v : Z) :
  (2 <= n)%nat ->
  spec_statistics (replicate n (PInt v)) (PInt v)
  = Ok (PInt (Z.abs v), f0_001, f0_0).
Proof.
  intros Hn. unfold spec_statistics.
  cbn [statistics_mean statistics_stdev Py64.numbers].
  rewrite mean_replicate_int by lia. rewrite stdev_replicate_int by lia.
  cbn [py_abs py_round py_sub py_int Py64.numbers Py64.abs Py64.round Py64.sub].
  change (Py64.int_round (Z.abs v) 3) with (Z.abs v).
  rewrite Z.sub_diag. reflexivity.
Qed.

Lemma replicate_slide {A} (n : nat) (x : A) :
  append (replicate n x) x = x :: replicate n x.
Proof. unfold append. induction n as [|n IH]; cbn; [reflexivity|]. now rewrite IH. Qed.

(** One evaluation of [v] on a window of copies of [v]. *)
Lemma check_if_anomaly_constant_window (n : nat) (v : Z) (s : Detector) :
  (2 <= n)%nat ->
  _model_size s = Z.of_nat n ->
  _model_data s = replicate n (PInt v) ->
  Py64.gt f0_0 (_z_score_thresh s) = false ->
  check_if_anomaly (PInt v) s =
    (set_anomaly 0
       (set_model_data (replicate n (PInt v))
          (store_statistics (PInt (Z.abs v)) f0_001 f0_0 s)), Ok tt).
Proof.
  intros Hn Hsize Hdata Hth.
  destruct n as [|n]; [lia|].
  rewrite (check_if_anomaly_active_result s (PInt v) (PInt v) (replicate n (PInt v))
             (PInt (Z.abs v)) f0_001 f0_0).
  - change (@py_gt Py64.numbers (@py_abs Py64.numbers f0_0) (_z_score_thresh s))
      with (Py64.gt f0_0 (_z_score_thresh s)).
    rewrite Hth, replicate_slide. reflexivity.
  - unfold active. rewrite Hdata, Hsize. unfold len.
    now rewrite length_replicate.
  - exact Hdata.
  - apply (spec_statistics_constant_window (S n) v). exact Hn.
Qed.

(** A window full of copies of one integer reading [v] has no spread,
    and [v] lies on its mean: evaluating [v] any number of times leaves
    the z-score at 0.0 and the window as it was. *)
Lemma repeated_value_constant_window (n k : nat) (v : Z) (s : Detector) :
  (2 <= n)%nat ->
  _model_size s = Z.of_nat n ->
  _model_data s = replicate n (PInt v) ->
  Py64.gt f0_0 (_z_score_thresh s) = false ->
  let s' := run_calls s (replicate (S k) (Evaluate (PInt v))) in
  z_score s' = f0_0 /\
  Py64.eq (z_score s') (PInt 0) = true /\
  anomaly s' = 0 /\
  _model_data s' = _model_data s.
Proof.
  intros Hn Hsize Hdata Hth. cbv zeta.
  revert s Hsize Hdata Hth. induction k as [|k IH]; intros s Hsize Hdata Hth.
  - cbn [replicate run_calls fold_left step]. unfold state_after.
    rewrite (check_if_anomaly_constant_window n v s Hn Hsize Hdata Hth).
    rewrite Hdata. repeat split.
  - change (run_calls s (replicate (S (S k)) (@Evaluate Py64.numbers (PInt v))))
      with (run_calls (step s (@Evaluate Py64.numbers (PInt v)))
                      (replicate (S k) (@Evaluate Py64.numbers (PInt v)))).
    cbn [step]. unfold state_after at 1 2 3 4.
    rewrite (check_if_anomaly_constant_window n v s Hn Hsize Hdata Hth).
    cbn [fst]. rewrite Hdata.
    apply IH; [exact Hsize|reflexivity|exact Hth].
Qed.

(** *** A reading on the mean

    The quotient of two ints is never a NaN. *)
Lemma shr_1_nonneg (mrs : shr_record) : 0 <= shr_m mrs -> 0 <= shr_m (shr_1 mrs).
Proof.
  destruct mrs as [m r s]. destruct m as [|p|p]; cbn; try lia.
  destruct p; cbn; lia.
Qed.

Lemma iter_pos_shr_1_nonneg (p : positive) (mrs : shr_record) :
  0 <= shr_m mrs -> 0 <= shr_m (SpecFloat.iter_pos shr_1 p mrs).
Proof.
  revert mrs. induction p as [p IH|p IH|]; intros mrs H; cbn.
  - apply IH, IH, shr_1_nonneg, H.
  - apply IH, IH, H.
  - apply shr_1_nonneg, H.
Qed.

Lemma shr_fexp_nonneg (m e : Z) (l : location) :
  0 <= m -> 0 <= shr_m (fst (shr_fexp Py64.prec Py64.emax m e l)).
Proof.
  intros Hm. unfold shr_fexp, shr.
  assert (H0 : 0 <= shr_m (shr_record_of_loc m l)).
  { unfold shr_record_of_loc. destruct l as [|[]]; cbn; exact Hm. }
  destruct (fexp Py64.prec Py64.emax (Zdigits2 m + e) - e); cbn [fst]; auto.
  now apply iter_pos_shr_1_nonneg.
Qed.

Lemma binary_round_aux_not_nan (sx : bool) (m e : Z) (l : location) :
  0 <= m -> binary_round_aux Py64.prec Py64.emax sx m e l <> S754_nan.
Proof.
  intros Hm. unfold binary_round_aux.
  pose proof (shr_fexp_nonneg m e l Hm) as H1.
  destruct (shr_fexp Py64.prec Py64.emax m e l) as [mrs' e']. cbn [fst] in H1.
  set (m1 := round_nearest_even (shr_m mrs') (loc_of_shr_record mrs')).
  assert (Hm1 : 0 <= m1).
  { unfold m1, round_nearest_even.
    destruct (loc_of_shr_record mrs') as [|[]]; try lia.
    destruct (Z.even (shr_m mrs')); lia. }
  pose proof (shr_fexp_nonneg m1 e' loc_Exact Hm1) as H2.
  destruct (shr_fexp Py64.prec Py64.emax m1 e' loc_Exact) as [mrs'' e'']. cbn [fst] in H2.
  destruct (shr_m mrs'') as [|p|p]; try lia; try discriminate.
  destruct (e'' <=? Py64.emax - Py64.prec); discriminate.
Qed.

Lemma SFdiv_finite_not_nan (sx sy : bool) (mx my : positive) (ex ey : Z) :
  SFdiv Py64.prec Py64.emax (S754_finite sx mx ex) (S754_finite sy my ey) <> S754_nan.
Proof.
  unfold SFdiv.
  destruct (SFdiv_core_binary Py64.prec Py64.emax (Z.pos mx) ex (Z.pos my) ey)
    as [[mz ez] lz] eqn:E.
  apply binary_round_aux_not_nan.
  unfold SFdiv_core_binary in E. cbv zeta in E.
  match type of E with
  | (let '(q, r) := IntDef.Z.div_eucl ?a ?b in _) = _ =>
      assert (Ha : 0 <= a);
      [|pose proof (Z.div_pos a b Ha) as Hq; unfold Z.div in Hq;
        change IntDef.Z.div_eucl with Z.div_eucl in E;
        destruct (Z.div_eucl a b) as [q r] eqn:Ed]
  end.
  - match goal with |- 0 <= match ?s with _ => _ end => destruct s eqn:Es end; try lia.
    change IntDef.Z.shiftl with Z.shiftl.
    rewrite Z.shiftl_mul_pow2 by lia. lia.
  - inversion E; subst. cbn [fst] in Hq. apply Hq. lia.
Qed.

Lemma int_truediv_not_nan (a b : Z) (f : spec_float) :
  Py64.int_truediv a b = Ok f -> f <> S754_nan.
Proof.
  unfold Py64.int_truediv. destruct (b =? 0); [discriminate|].
  destruct (Z.abs a) as [|p|p].
  - intros H; inversion H; discriminate.
  - pose proof (SFdiv_finite_not_nan (xorb (a <? 0) (b <? 0)) false p (Z.to_pos (Z.abs b)) 0 0) as Hn.
    destruct (SFdiv _ _ _ _) as [| | |]; cbn; intros H; inversion H; subst; auto; discriminate.
  - intros H; inversion H; discriminate.
Qed.

(** [statistics.stdev] returns a float that is not a NaN. *)
Lemma stdev_float (data : list Py64.pynum) (sd : Py64.pynum) :
  Py64.stdev data = Ok sd -> exists f, sd = PFloat f /\ f <> S754_nan.
Proof.
  unfold Py64.stdev. destruct (Py64._ss data) as [[T ss] n].
  destruct (n <? 2); [discriminate|].
  destruct ss as [q|]; [|discriminate].
  destruct (Py64._float_sqrt_of_frac _ _) as [f|] eqn:E; [|discriminate].
  intros H; inversion H; subst. exists f. split; [reflexivity|].
  unfold Py64._float_sqrt_of_frac in E.
  destruct (0 <=? _) in E; now apply int_truediv_not_nan in E.
Qed.

Lemma Fraction_zero (n : Z) (d : positive) :
  Qcompare (Py64.Fraction n d) (inject_Z 0) = Eq -> n = 0.
Proof.
  intros H. apply Qeq_alt in H. unfold Py64.Fraction in H.
  rewrite Qred_correct in H. unfold Qeq in H. cbn in H. lia.
Qed.

Lemma eq_zero_inv (d : Py64.pynum) :
  Py64.eq d (PInt 0) = true -> d = PInt 0 \/ exists sg, d = PFloat (S754_zero sg).
Proof.
  unfold Py64.eq, Py64.compare. destruct d as [n|f].
  - destruct (n ?= 0) eqn:E; try discriminate. apply Z.compare_eq in E. subst. auto.
  - destruct f as [sg|sg| |sg m e]; try discriminate; eauto.
    + destruct sg; discriminate.
    + destruct (Qcompare _ _) eqn:E; try discriminate. intros _. exfalso.
      unfold Py64.exact_value in E.
      destruct (0 <=? e) eqn:He; apply Fraction_zero in E.
      * apply Z.leb_le in He. pose proof (Z.pow_pos_nonneg 2 e).
        destruct sg; cbn [cond_Zopp] in E; nia.
      * destruct sg; cbn [cond_Zopp] in E; lia.
Qed.

Lemma truediv_zero (d : Py64.pynum) (g : spec_float) (q : Py64.pynum) :
  d = PInt 0 \/ (exists sg, d = PFloat (S754_zero sg)) ->
  g <> S754_nan ->
  Py64.truediv d (PFloat g) = Ok q ->
  exists sg, q = PFloat (S754_zero sg).
Proof.
  intros [->|[sg ->]] Hg; cbn; destruct g; cbn; intros H; inversion H; eauto;
    try discriminate; now contradiction Hg.
Qed.

(** Zero divided by the standard deviation, rounded, is zero. *)
Lemma z_score_on_mean (data : list Py64.pynum) (v avg std_dev z d : Py64.pynum) :
  @spec_statistics Py64.numbers data v = Ok (avg, std_dev, z) ->
  Py64.sub (Py64.abs v) avg = Ok d ->
  Py64.eq d (PInt 0) = true ->
  exists sg, z = PFloat (S754_zero sg).
Proof.
  unfold spec_statistics.
  cbn [statistics_mean statistics_stdev py_round py_abs py_eq py_int py_sub py_truediv
       py_float_literal Py64.numbers].
  destruct (Py64.mean data) as [m|]; [|discriminate].
  destruct (Py64.round (Py64.abs m) 3) as [avg'|]; [|discriminate].
  destruct (Py64.stdev data) as [sd|] eqn:Esd; [|discriminate].
  apply stdev_float in Esd. destruct Esd as [f [-> Hf]].
  destruct (Py64.sub (Py64.abs v) avg') as [d'|] eqn:Ed; [|discriminate].
  intros H Hsub Hzero.
  set (std := if Py64.eq _ _ then _ else _) in H.
  destruct (Py64.truediv d' std) as [q|] eqn:Eq; [|discriminate].
  destruct (Py64.round q 3) as [z'|] eqn:Ez; [|discriminate].
  inversion H; subst avg' std_dev z'. rewrite Ed in Hsub. inversion Hsub; subst d'.
  apply eq_zero_inv in Hzero.
  assert (Hq : exists sg, q = PFloat (S754_zero sg)).
  { unfold std in Eq. destruct (Py64.eq _ _).
    - assert (Hlit : exists g, Py64.float_literal 1 (-3) = PFloat g /\ g <> S754_nan).
      { eexists. split; [vm_compute; reflexivity|discriminate]. }
      destruct Hlit as [g [Hg Hnan]]. rewrite Hg in Eq.
      apply (truediv_zero d g q Hzero Hnan Eq).
    - apply (truediv_zero d (SFabs f) q Hzero); [|exact Eq].
      destruct f; try discriminate. now contradiction Hf. }
  destruct Hq as [sg ->]. cbn in Ez. inversion Ez. eauto.
Qed.

(** A zero z-score is not above a threshold that zero is not above. *)
Lemma gt_zero_float (sg : bool) (t : Py64.pynum) :
  Py64.gt f0_0 t = false ->
  Py64.gt (Py64.abs (PFloat (S754_zero sg))) t = false.
Proof. intros H. exact H. Qed.

(** One evaluation of a value that lies on the mean. *)
Lemma check_if_anomaly_on_mean (s : Detector) (v : Py64.pynum) :
  active s ->
  Py64.gt f0_0 (_z_score_thresh s) = false ->
  on_baseline_mean (_model_data s) v = true ->
  exists avg std_dev sg,
    check_if_anomaly v s =
      (set_anomaly 0
         (set_model_data (slide v (_model_data s))
            (store_statistics avg std_dev (PFloat (S754_zero sg)) s)), Ok tt).
Proof.
  intros Hact Hth Hon. unfold on_baseline_mean in Hon.
  destruct (@spec_statistics Py64.numbers (_model_data s) v)
    as [[[avg std_dev] z]|] eqn:Hstat;
    [|discriminate].
  destruct (@py_sub Py64.numbers (@py_abs Py64.numbers v) avg) as [d|] eqn:Hsub;
    [|discriminate].
  destruct (z_score_on_mean _ _ _ _ _ _ Hstat Hsub Hon) as [sg ->].
  destruct (_model_data s) as [|x rest] eqn:Hdata; [discriminate|].
  exists avg, std_dev, sg.
  rewrite (check_if_anomaly_active_result s v x rest avg std_dev (PFloat (S754_zero sg))
             Hact Hdata Hstat).
  change (@py_gt Py64.numbers (@py_abs Py64.numbers (PFloat (S754_zero sg)))
                 (_z_score_thresh s))
    with (Py64.gt f0_0 (_z_score_thresh s)).
  rewrite Hth. reflexivity.
Qed.

Lemma slide_len (v : Py64.pynum) (x : Py64.pynum) (rest : list Py64.pynum) :
  len (slide v (x :: rest)) = len (x :: rest).
Proof. unfold slide, append, len. cbn [tl]. rewrite length_app. cbn. lia. Qed.

(** C8 (amended): take a detector in the ACTIVE state, with a baseline
    of any spread, whose threshold is not below zero, and a value [v]
    that lies on the mean at each evaluation: the statistics of the
    window can be computed and [|v| - mean == 0], for the window as the
    evaluations before have slid it.  Then each evaluation of [v] yields
    a z-score equal to 0 and classifies [v] as no anomaly, and the window
    slides by one reading each time. *)
Theorem repeated_value_on_baseline_mean (s : Detector) (v : Py64.pynum) (k : nat) :
  active s ->
  Py64.gt f0_0 (_z_score_thresh s) = false ->
  (forall i, (i <= k)%nat ->
     on_baseline_mean (Nat.iter i (slide v) (_model_data s)) v = true) ->
  let s' := run_calls s (replicate (S k) (Evaluate v)) in
  Py64.eq (z_score s') (PInt 0) = true /\
  anomaly s' = 0 /\
  _model_data s' = Nat.iter (S k) (slide v) (_model_data s) /\
  _model_size s' = _model_size s.
Proof.
  cbv zeta. revert s. induction k as [|k IH]; intros s Hact Hth Hon.
  - destruct (check_if_anomaly_on_mean s v Hact Hth (Hon 0%nat (le_n _)))
      as [avg [std_dev [sg E]]].
    cbn [replicate run_calls fold_left step]. unfold state_after. rewrite E.
    repeat split.
  - destruct (check_if_anomaly_on_mean s v Hact Hth (Hon 0%nat (Nat.le_0_l _)))
      as [avg [std_dev [sg E]]].
    change (run_calls s (replicate (S (S k)) (@Evaluate Py64.numbers v)))
      with (run_calls (step s (@Evaluate Py64.numbers v))
                      (replicate (S k) (@Evaluate Py64.numbers v))).
    cbn [step]. unfold state_after at 1 2 3 4. rewrite E. cbn [fst].
    set (s1 := set_anomaly 0 _).
    assert (Hdata1 : _model_data s1 = slide v (_model_data s)) by reflexivity.
    assert (Hon0 := Hon 0%nat (Nat.le_0_l _)). cbn [Nat.iter] in Hon0.
    destruct (IH s1) as [Hz [Ha [Hd Hs]]].
    + unfold active in *. rewrite Hdata1.
      destruct (_model_data s) as [|x rest] eqn:Hd; [discriminate|].
      rewrite slide_len. exact Hact.
    + exact Hth.
    + intros i Hi. rewrite Hdata1, <- Nat.iter_succ_r. apply Hon. lia.
    + repeat split; auto. rewrite Hd, Hdata1. now rewrite <- Nat.iter_succ_r.
Qed.

Lemma repeated_value_on_baseline_mean_witness :
  let s' := run_calls Scenario2.near_2 (replicate 4%nat (@Evaluate Py64.numbers (PInt 2))) in
  Py64.eq (z_score s') (PInt 0) = true /\
  anomaly s' = 0 /\
  _model_data s' = [PInt 2; PInt 2; PInt 2] /\
  _model_size s' = 3.
Proof.
  apply (repeated_value_on_baseline_mean Scenario2.near_2 (PInt 2) 3).
  - reflexivity.
  - reflexivity.
  - intros i Hi. destruct i as [|[|[|[|i]]]]; [vm_compute; reflexivity..|lia].
Defined.

(** With a threshold below zero a z-score of 0 is above it: on the
    baseline [1, 2, 3] with threshold -1 the reading 2 has the z-score
    0.0 and is an anomaly. *)
Lemma repeated_value_negative_threshold :
  let s1 := state_after (check_if_anomaly (PInt 2)) Scenario2.negative_threshold in
  active Scenario2.negative_threshold /\
  z_score s1 = f0_0 /\ anomaly s1 = 1.
Proof. vm_compute. repeat split. Qed.

Example near_2_has_spread :
  exists sd, statistics_stdev (_model_data Scenario2.near_2) = Ok sd /\
             Py64.eq sd (PInt 0) = false.
Proof. eexists. split; [vm_compute; reflexivity|reflexivity]. Qed.

(** *** Vibration events and unconfigured sensors *)

Section VibrationOnPy64.
Context {libm : Py64.Libm}.



End VibrationOnPy64.


(** A C library that rounds correctly gives the float axes 3.0, 4.0 and
    0.0 the total 5.0 as well. *)
Example vibration_float_axes :
  py_pow2 (Py64.float_literal 3 0) = Ok (Py64.float_literal 9 0) /\
  py_pow2 (Py64.float_literal 4 0) = Ok (Py64.float_literal 16 0) /\
  vib_total_rms (Py64.float_literal 3 0) (Py64.float_literal 4 0) f0_0 = Ok f5_0.
Proof. vm_compute. repeat split. Qed.

(** The first such event on a fresh service: 5.0 is the first reading
    of the baseline and the total written to the point. *)
Example vibration_event_end_to_end :
  let a := state_after (vibration_sensor_data axes_3_4_0) demo_app in
  outcome (vibration_sensor_data axes_3_4_0) demo_app = Ok 201 /\
  (_model_data <$> vibration_analytics_objects a !! "spindle"%string) = Some [f5_0] /\
  (fields <$> influx a) =
    [[("vib_accel_rms_x"%string, PInt 3); ("vib_accel_rms_y"%string, PInt 4);
      ("vib_accel_rms_z"%string, PInt 0); ("vib_accel_rms_total"%string, f5_0);
      ("anomaly"%string, PInt 0); ("anomaly_ratio"%string, f0_0);
      ("model_avg"%string, f0_0); ("z_score"%string, f0_0);
      ("z_score_thresh"%string, f2_0)]].
Proof. vm_compute. repeat split. Qed.

Lemma unconfigured_sensor_routing_witness :
  sensor_data unconfigured_body demo_app =
    (set_influx
       [{| measurement := "GenericSensor";
           tags := [("line_name"%string, "line 1"%string);
                    ("machine_name"%string, "lathe"%string);
                    ("sensor_name"%string, "pressure"%string)];
           fields := [("value"%string, Py64.float_literal 12345679 (-4))];
           time := 1700000000123000 |}] demo_app,
     Ok 201) /\
  vibration_sensor_data unconfigured_vibration_body demo_app = (demo_app, Ok 201).
Proof.
  apply (unconfigured_sensor_routing demo_app unconfigured_body
           unconfigured_vibration_body
           (Py64.float_literal 12345679 (-4)) (Py64.float_literal 12345679 (-4))
           (Py64.float_literal 1700000000123 (-3)) 1700000000123000).
  - vm_compute. intros H. inversion H as [|? ? ? H']. inversion H'.
  - reflexivity.
  - reflexivity.
  - reflexivity.
  - reflexivity.
  - vm_compute. intros H. inversion H as [|? ? ? H']. inversion H'.
Defined.

End OnPy64.

(** * Further properties of the detector *)

Section DetectorMore.
Context {PN : PyNumbers}.

Lemma step_run_call (s : AnomalyDetectionZscore) (c : call) :
  step s c = state_after (run_call c) s.
Proof. now destruct c. Qed.

Lemma run_calls_app (s : AnomalyDetectionZscore) (calls1 calls2 : list call) :
  run_calls s (calls1 ++ calls2) = run_calls (run_calls s calls1) calls2.
Proof. unfold run_calls. apply fold_left_app. Qed.

(** While the window is not full, an evaluation appends the reading and
    does nothing else. *)
Lemma check_if_anomaly_building (value : num) (s : AnomalyDetectionZscore) :
  len (_model_data s) <> _model_size s ->
  check_if_anomaly value s = (set_model_data (append (_model_data s) value) s, Ok tt).
Proof.
  intros Hb. apply Z.eqb_neq in Hb. unfold_py. now rewrite Hb.
Qed.

Lemma baseline_fills_from (values : list num) (s : AnomalyDetectionZscore) :
  len (_model_data s) + len values <= _model_size s ->
  run_calls s (map Evaluate values) = set_model_data (_model_data s ++ values) s /\
  call_outcomes s (map Evaluate values) = map (fun _ => Ok tt) values.
Proof.
  revert s. induction values as [|v values IH]; intros s Hlen.
  - cbn. rewrite app_nil_r. split; [now destruct s|reflexivity].
  - assert (Hb : len (_model_data s) <> _model_size s).
    { unfold len in *. cbn [length] in Hlen. lia. }
    cbn [map call_outcomes run_call]. unfold run_calls. cbn [fold_left step].
    unfold outcome, state_after. rewrite (check_if_anomaly_building v s Hb). cbn [fst snd].
    destruct (IH (set_model_data (append (_model_data s) v) s)) as [Hrun Hout].
    { cbn. rewrite len_append. unfold len in *. cbn [length] in Hlen. lia. }
    unfold run_calls in Hrun. rewrite Hrun, Hout. cbn. unfold append.
    rewrite <- app_assoc. split; reflexivity.
Qed.

(** X1: on a fresh detector, as long as no more readings are evaluated
    than the model size, every [check_if_anomaly] returns normally and
    the baseline window is the list of the readings in the order they
    came; no statistic and no flag has been computed, every other
    attribute is as the constructor left it. *)
Theorem baseline_fills_in_order
        (name : string) (model_size anomaly_list_size : Z) (values : list num) :
  len values <= model_size ->
  run_calls (__init__ name model_size anomaly_list_size) (map Evaluate values)
  = set_model_data values (__init__ name model_size anomaly_list_size) /\
  call_outcomes (__init__ name model_size anomaly_list_size) (map Evaluate values)
  = map (fun _ => Ok tt) values.
Proof.
  intros Hlen.
  apply (baseline_fills_from values (__init__ name model_size anomaly_list_size)).
  cbn. unfold len at 1. cbn. lia.
Qed.


(** *** Flags *)

Lemma step_flags (s : AnomalyDetectionZscore) (c : call) :
  is_flag (_anomaly s) /\ Forall is_flag (_anomaly_list s) ->
  is_flag (_anomaly (step s c)) /\ Forall is_flag (_anomaly_list (step s c)).
Proof.
  intros [Ha Hl]. unfold is_flag in *.
  assert (Hpop : forall l l', pop0 l = Ok l' ->
                   Forall (fun a => a = 0 \/ a = 1) l ->
                   Forall (fun a => a = 0 \/ a = 1) l').
  { intros [|x l] l' H HF; inversion H; subst. now inversion HF. }
  destruct c; cbn [step]; py_cases; unfold append; split;
    rewrite ?Forall_app; repeat split; eauto.
Qed.

Lemma py_sum_from (l : list Z) (a : Z) : fold_left Z.add l a = a + py_sum l.
Proof.
  unfold py_sum. revert a. induction l as [|x l IH]; intros a; cbn [fold_left]; [lia|].
  rewrite (IH (a + x)), (IH (0 + x)). lia.
Qed.

Lemma py_sum_flags (l : list Z) : Forall is_flag l -> 0 <= py_sum l <= len l.
Proof.
  unfold is_flag, len. induction 1 as [|x l Hx _ IH].
  - cbn. lia.
  - unfold py_sum. cbn [fold_left length]. rewrite py_sum_from. lia.
Qed.

(** X3: after any sequence of calls on a fresh detector, the anomaly
    flag is 0 or 1 and so is every entry of the anomaly window; the sum
    the ratio is computed from therefore lies between 0 and the length
    of the window. *)
Theorem flags_are_binary
        (name : string) (model_size anomaly_list_size : Z) (calls : list call) :
  let s := run_calls (__init__ name model_size anomaly_list_size) calls in
  is_flag (_anomaly s) /\
  Forall is_flag (_anomaly_list s) /\
  0 <= py_sum (_anomaly_list s) <= len (_anomaly_list s).
Proof.
  cbv zeta.
  assert (H : forall s,
             is_flag (_anomaly s) /\ Forall is_flag (_anomaly_list s) ->
             is_flag (_anomaly (run_calls s calls)) /\
             Forall is_flag (_anomaly_list (run_calls s calls))).
  { induction calls as [|c calls IH]; intros s Hs; [exact Hs|].
    apply (IH (step s c)). now apply step_flags. }
  destruct (H (__init__ name model_size anomaly_list_size)) as [Ha Hl].
  { unfold is_flag. cbn. auto. }
  repeat split; try assumption; now apply py_sum_flags.
Qed.

(** *** Where the baseline comes from *)

Lemma check_if_anomaly_data_cases (value : num) (s : AnomalyDetectionZscore) :
  let data' := _model_data (state_after (check_if_anomaly value) s) in
  data' = _model_data s \/
  data' = _model_data s ++ [value] \/
  exists x rest, _model_data s = x :: rest /\ data' = rest ++ [value].
Proof.
  py_cases; auto;
    match goal with
    | H : pop0 ?l = Ok ?l' |- _ => destruct l as [|x rest] eqn:E; inversion H; subst
    end;
    right; right; eauto.
Qed.

Lemma evaluated_values_cons (c : call) (calls : list call) :
  evaluated_values (c :: calls) = evaluated_values [c] ++ evaluated_values calls.
Proof. unfold evaluated_values. cbn. now rewrite app_nil_r. Qed.

Lemma step_data_sublist (s : AnomalyDetectionZscore) (c : call) :
  _model_data (step s c) `sublist_of` _model_data s ++ evaluated_values [c].
Proof.
  destruct c as [value| |t|]; cbn [step evaluated_values flat_map]; rewrite ?app_nil_r.
  - destruct (check_if_anomaly_data_cases value s) as [->|[->|(x & rest & -> & ->)]].
    + now apply sublist_inserts_r.
    + reflexivity.
    + cbn. now apply sublist_cons.
  - pose proof (calculate_anomaly_ratio_frame s) as (-> & _). reflexivity.
  - py_cases; reflexivity.
  - cbn. apply sublist_nil_l.
Qed.

(** X4: after any sequence of calls on a fresh detector, the baseline
    window is a subsequence of the readings that were handed to
    [check_if_anomaly]: it holds nothing that was not evaluated, and it
    holds the readings in the order they came. *)
Theorem baseline_is_subsequence_of_readings
        (name : string) (model_size anomaly_list_size : Z) (calls : list call) :
  _model_data (run_calls (__init__ name model_size anomaly_list_size) calls)
    `sublist_of` evaluated_values calls.
Proof.
  assert (H : forall s,
             _model_data (run_calls s calls)
               `sublist_of` _model_data s ++ evaluated_values calls).
  { induction calls as [|c calls IH]; intros s.
    - cbn. now rewrite app_nil_r.
    - change (run_calls s (c :: calls)) with (run_calls (step s c) calls).
      etransitivity; [apply IH|].
      rewrite (evaluated_values_cons c calls), app_assoc. apply sublist_app; [apply step_data_sublist|reflexivity]. }
  apply (H (__init__ name model_size anomaly_list_size)).
Qed.

(** *** What only a reset undoes *)

Lemma step_anomaly_list_grows (s : AnomalyDetectionZscore) (c : call) :
  is_reset c = false ->
  len (_anomaly_list s) <= len (_anomaly_list (step s c)).
Proof.
  destruct c; cbn [is_reset step]; try discriminate; intros _;
    py_cases; len_solve.
Qed.

Lemma step_active (s : AnomalyDetectionZscore) (c : call) :
  is_reset c = false -> active s -> active (step s c).
Proof.
  destruct c as [value| |t|]; cbn [is_reset step]; try discriminate; intros _ Hact.
  - now apply check_if_anomaly_active.
  - unfold active in *.
    pose proof (calculate_anomaly_ratio_frame s) as (-> & -> & _). exact Hact.
  - revert Hact. unfold active. py_cases; auto.
Qed.

(** X5: as long as [reset_algorithm] is not called, a baseline window
    that is full stays full whatever is evaluated, and the anomaly
    window never gets shorter. *)
Theorem full_baseline_stays_full (s : AnomalyDetectionZscore) (calls : list call) :
  active s ->
  existsb is_reset calls = false ->
  active (run_calls s calls) /\
  len (_anomaly_list s) <= len (_anomaly_list (run_calls s calls)).
Proof.
  revert s. induction calls as [|c calls IH]; intros s Hact Hnr.
  - cbn. split; [exact Hact|lia].
  - cbn [existsb] in Hnr. apply orb_false_elim in Hnr as [Hc Hnr].
    change (run_calls s (c :: calls)) with (run_calls (step s c) calls).
    destruct (IH (step s c)) as [Hact' Hlen]; [now apply step_active|exact Hnr|].
    split; [exact Hact'|].
    pose proof (step_anomaly_list_grows s c Hc). lia.
Qed.

(** X6: a reading that a full baseline classifies as an anomaly does not
    enter the window, so evaluating it again finds the same baseline and
    the same threshold: however often it is evaluated, the detector stays
    in the state the first evaluation left, flag 1 and the statistics of
    that first evaluation. *)
Theorem anomaly_verdict_repeats
        (s : AnomalyDetectionZscore) (value x : num) (rest : list num)
        (avg std_dev z : num) (k : nat) :
  active s ->
  _model_data s = x :: rest ->
  spec_statistics (x :: rest) value = Ok (avg, std_dev, z) ->
  py_gt (py_abs z) (_z_score_thresh s) = true ->
  run_calls s (replicate (S k) (Evaluate value))
  = set_anomaly 1 (store_statistics avg std_dev z s).
Proof.
  intros Hact Hdata Hstat Hgt.
  assert (Hone : forall s0,
             active s0 -> _model_data s0 = x :: rest ->
             _z_score_thresh s0 = _z_score_thresh s ->
             step s0 (Evaluate value) = set_anomaly 1 (store_statistics avg std_dev z s0)).
  { intros s0 H0 Hd0 Ht0. cbn [step]. unfold state_after.
    rewrite (check_if_anomaly_active_result s0 value x rest avg std_dev z H0 Hd0 Hstat).
    now rewrite Ht0, Hgt. }
  assert (Hall : forall s0,
             active s0 -> _model_data s0 = x :: rest ->
             _z_score_thresh s0 = _z_score_thresh s ->
             run_calls s0 (replicate (S k) (Evaluate value))
             = set_anomaly 1 (store_statistics avg std_dev z s0)).
  { induction k as [|k IH]; intros s0 H0 Hd0 Ht0.
    - cbn [replicate run_calls fold_left]. now apply Hone.
    - change (run_calls s0 (replicate (S (S k)) (Evaluate value)))
        with (run_calls (step s0 (Evaluate value)) (replicate (S k) (Evaluate value))).
      rewrite (Hone s0 H0 Hd0 Ht0). rewrite IH; [reflexivity|exact H0|exact Hd0|exact Ht0]. }
  now apply Hall.
Qed.

(** *** The reading that completes the baseline *)

(** X7: when a reading is the one that fills the baseline window and the
    anomaly window has room, the [calculate_anomaly_ratio] call that
    follows its evaluation already appends the anomaly flag.  That flag
    is the one the detector had before, since the reading itself was
    only appended and not classified; nothing raises and no statistic
    changes. *)
Theorem completing_reading_is_flagged (s : AnomalyDetectionZscore) (value : num) :
  len (_model_data s) + 1 = _model_size s ->
  len (_anomaly_list s) < _anomaly_list_size s ->
  evaluate_and_update value s
  = (set_anomaly_list (append (_anomaly_list s) (_anomaly s))
       (set_model_data (append (_model_data s) value) s), Ok tt).
Proof.
  intros Hlast Hroom. unfold evaluate_and_update, bind.
  rewrite check_if_anomaly_building by lia.
  rewrite calculate_anomaly_ratio_append; [reflexivity| |exact Hroom].
  unfold active. cbn. rewrite len_append. lia.
Qed.

(** *** The anomaly window once it is full *)

Lemma calculate_anomaly_ratio_full
      (s : AnomalyDetectionZscore) (oldest : Z) (rest : list Z) :
  active s ->
  _anomaly_list s = oldest :: rest ->
  _anomaly_list_size s <= len (oldest :: rest) ->
  calculate_anomaly_ratio s
  = match py_truediv (py_int (py_sum (append rest (_anomaly s))))
                     (py_int (_anomaly_list_size s)) with
    | Ok q =>
        match py_round q 3 with
        | Ok ratio =>
            (set_anomaly_ratio ratio (set_anomaly_list (append rest (_anomaly s)) s),
             Ok tt)
        | Raise _ => (set_anomaly_list (append rest (_anomaly s)) s, Raise NameError)
        end
    | Raise _ => (set_anomaly_list (append rest (_anomaly s)) s, Raise NameError)
    end.
Proof.
  unfold active. intros Hact Hlist Hfull.
  apply Z.eqb_eq in Hact. unfold_py. rewrite Hact, Hlist.
  destruct (Z.ltb_spec (len (oldest :: rest)) (_anomaly_list_size s)) as [|_]; [lia|].
  cbn. destruct (py_truediv _ _) as [q|e]; cbn; [|reflexivity].
  destruct (py_round q 3); reflexivity.
Qed.

(** X8: on a full baseline, [calculate_anomaly_ratio] with a full
    anomaly window evicts the oldest flag and appends the current one,
    the window keeping its length.  The new ratio is the sum of the new
    window divided by the configured size and rounded to three decimals;
    when that division or rounding raises, the call raises [NameError]
    with the window already moved on and the ratio left as it was. *)
Theorem anomaly_window_slides
        (s : AnomalyDetectionZscore) (oldest : Z) (rest : list Z) :
  active s ->
  _anomaly_list s = oldest :: rest ->
  _anomaly_list_size s <= len (oldest :: rest) ->
  let s' := state_after calculate_anomaly_ratio s in
  _anomaly_list s' = append rest (_anomaly s) /\
  len (_anomaly_list s') = len (_anomaly_list s) /\
  match py_truediv (py_int (py_sum (append rest (_anomaly s))))
                   (py_int (_anomaly_list_size s)) with
  | Ok q =>
      match py_round q 3 with
      | Ok ratio =>
          _anomaly_ratio s' = ratio /\ outcome calculate_anomaly_ratio s = Ok tt
      | Raise _ =>
          _anomaly_ratio s' = _anomaly_ratio s /\
          outcome calculate_anomaly_ratio s = Raise NameError
      end
  | Raise _ =>
      _anomaly_ratio s' = _anomaly_ratio s /\
      outcome calculate_anomaly_ratio s = Raise NameError
  end.
Proof.
  intros Hact Hlist Hfull. cbv zeta. unfold state_after, outcome.
  rewrite (calculate_anomaly_ratio_full s oldest rest Hact Hlist Hfull), Hlist.
  assert (Hlen : len (append rest (_anomaly s)) = len (oldest :: rest)).
  { rewrite len_append. unfold len. cbn [length]. lia. }
  destruct (py_truediv _ _) as [q|e]; [destruct (py_round q 3)|]; cbn; auto.
Qed.

(** When the standard deviation of a full window cannot be computed, the
    evaluation raises and classifies nothing. *)
Lemma check_if_anomaly_without_stdev (value : num) (s : AnomalyDetectionZscore) :
  active s ->
  is_ok (statistics_stdev (_model_data s)) = false ->
  let s' := state_after (check_if_anomaly value) s in
  outcome (check_if_anomaly value) s = Raise NameError /\
  _model_data s' = _model_data s /\
  _anomaly s' = _anomaly s /\
  _model_std_dev s' = _model_std_dev s /\
  _z_score s' = _z_score s.
Proof.
  unfold active. intros Hact Hsd. apply Z.eqb_eq in Hact. cbv zeta.
  unfold_py. cbn. rewrite Hact. cbn.
  destruct (statistics_mean (_model_data s)); cbn; [|auto].
  destruct (py_round _ 3); cbn; [|auto].
  destruct (statistics_stdev (_model_data s)); [discriminate|]. cbn. auto.
Qed.

(** X9: with an anomaly-list size of zero or less, a detector whose
    baseline is full can never record a flag: [calculate_anomaly_ratio]
    finds the empty anomaly window "full", fails to evict from it, and
    raises [NameError] with nothing changed, at every call. *)
Theorem zero_anomaly_list_size_always_raises (s : AnomalyDetectionZscore) :
  active s ->
  _anomaly_list s = [] ->
  _anomaly_list_size s <= 0 ->
  calculate_anomaly_ratio s = (s, Raise NameError).
Proof.
  unfold active. intros Hact Hlist Hsize.
  apply Z.eqb_eq in Hact. unfold_py. rewrite Hact, Hlist.
  destruct (Z.ltb_spec (len (@nil Z)) (_anomaly_list_size s)) as [H|_];
    [unfold len in H; cbn in H; lia|].
  reflexivity.
Qed.

End DetectorMore.

(** * Further properties of the handlers *)

Ltac unfold_monad := unfold bind, gets, lift, modify, ret, raise, state_after, outcome in *.

Section AppMore.
Context {PN : PyNumbers} {PW : PyPower}.

Lemma set_generic_analytics_objects_id (a : App) :
  set_generic_analytics_objects (generic_analytics_objects a) a = a.
Proof. now destruct a. Qed.

Lemma set_vibration_analytics_objects_id (a : App) :
  set_vibration_analytics_objects (vibration_analytics_objects a) a = a.
Proof. now destruct a. Qed.

(** Building the analytics fields reads the detector and changes
    nothing. *)
Lemma analytics_fields_pure (o : AnomalyDetectionZscore) (a : App) :
  state_after (analytics_fields o) a = a.
Proof. unfold analytics_fields, round4_float. unfold_monad. repeat (next_case; cbn); reflexivity. Qed.

Lemma analytics_fields_names (o : AnomalyDetectionZscore) (a : App)
      (fs : list (string * num)) :
  outcome (analytics_fields o) a = Ok fs ->
  map fst fs = analytics_field_names /\
  fs !! 0%nat = Some ("anomaly"%string, py_int (anomaly o)).
Proof.
  unfold analytics_fields, round4_float. unfold_monad.
  repeat (next_case; cbn); intros H; inversion H; subst; split; reflexivity.
Qed.

Lemma analytics_fields_run (o : AnomalyDetectionZscore) (a a' : App)
      (fs : list (string * num)) :
  outcome (analytics_fields o) a = Ok fs -> analytics_fields o a' = (a', Ok fs).
Proof.
  unfold analytics_fields, round4_float. unfold_monad.
  repeat (next_case; cbn); intros H; inversion H; subst; reflexivity.
Qed.

(** The point of an event of a configured sensor, given the analytics
    fields. *)
Lemma sensor_data_point
        (a : App) (data : SensorData) (o o' : AnomalyDetectionZscore)
        (rounded value seconds : num) (fs : list (string * num)) (t : datetime) :
  SensorName data ∈ generic_sensors_for_analytics a ->
  generic_analytics_objects a !! SensorName data = Some o ->
  detector_pipeline (Z_SCORE_THRESHOLD a) (SensorValue data) o = (o', Ok tt) ->
  py_round (SensorValue data) 4 = Ok rounded ->
  py_float rounded = Ok value ->
  outcome (analytics_fields o') a = Ok fs ->
  py_truediv (py_int (TimeStamp data)) (py_int 1000) = Ok seconds ->
  datetime_fromtimestamp seconds = Ok t ->
  sensor_data data a =
    (set_influx
       (append (influx a)
               {| measurement := "SingleSensorAnalytics";
                  tags := [("line_name"%string, LineName data);
                           ("machine_name"%string, MachineName data);
                           ("sensor_name"%string, SensorName data)];
                  fields := ("value"%string, value) :: fs;
                  time := t |})
       (set_generic_analytics_objects
          (<[SensorName data := o']> (generic_analytics_objects a)) a),
     Ok 201) /\
  map fst fs = analytics_field_names.
Proof.
  intros Hname Hobj Hpipe Hround Hfloat Hfs Hdiv Htime.
  split; [|exact (proj1 (analytics_fields_names o' a fs Hfs))].
  unfold detector_pipeline, bind in Hpipe.
  destruct (z_score_thresh_setter (Z_SCORE_THRESHOLD a) o) as [o1 [[]|e1]] eqn:H1;
    [|discriminate].
  destruct (check_if_anomaly (SensorValue data) o1) as [o2 [[]|e2]] eqn:H2;
    [|discriminate].
  destruct (calculate_anomaly_ratio o2) as [o3 [[]|e3]] eqn:H3; inversion Hpipe; subst o3.
  unfold sensor_data, on_generic_object, point_time, write_to_influx.
  unfold bind at 1 2 3. unfold gets at 1 2.
  rewrite bool_decide_eq_true_2 by exact Hname.
  unfold bind, gets, lift, modify, ret. cbn.
  rewrite Hobj, H1. cbn. rewrite lookup_insert_eq, H2. cbn.
  rewrite lookup_insert_eq, H3. cbn. rewrite Hround, Hfloat, lookup_insert_eq.
  rewrite !insert_insert_eq.
  rewrite (analytics_fields_run o' a _ fs Hfs). rewrite Hdiv, Htime. reflexivity.
Qed.

(** The analytics fields are the detector's flag and its ratio, mean,
    z-score and threshold, each as [round(float(x), 4)]. *)
Lemma analytics_fields_values
      (o : AnomalyDetectionZscore) (a : App) (ratio avg z thresh : num) :
  match py_float (anomaly_ratio o) with Ok f => py_round f 4 | Raise e => Raise e end
  = Ok ratio ->
  match py_float (model_avg o) with Ok f => py_round f 4 | Raise e => Raise e end
  = Ok avg ->
  match py_float (z_score o) with Ok f => py_round f 4 | Raise e => Raise e end
  = Ok z ->
  match py_float (z_score_thresh o) with Ok f => py_round f 4 | Raise e => Raise e end
  = Ok thresh ->
  outcome (analytics_fields o) a
  = Ok [("anomaly"%string, py_int (anomaly o));
        ("anomaly_ratio"%string, ratio);
        ("model_avg"%string, avg);
        ("z_score"%string, z);
        ("z_score_thresh"%string, thresh)].
Proof.
  unfold analytics_fields, round4_float. unfold_monad.
  intros Hratio Havg Hz Hthresh.
  destruct (py_float (anomaly_ratio o)) as [f1|]; [|discriminate]. cbn. rewrite Hratio.
  destruct (py_float (model_avg o)) as [f2|]; [|discriminate]. cbn. rewrite Havg.
  destruct (py_float (z_score o)) as [f3|]; [|discriminate]. cbn. rewrite Hz.
  destruct (py_float (z_score_thresh o)) as [f4|]; [|discriminate]. cbn. rewrite Hthresh.
  reflexivity.
Qed.

(** X10: an event handed to [sensor_data] for a sensor configured for
    analytics, when nothing raises, gives the unrounded sensor value to
    the detector pipeline, leaves the detector in the state the pipeline
    produced, and hands exactly one point of measurement
    [SingleSensorAnalytics] to [write_to_influx].  The fields of the
    point are the value as [float(round(value, 4))], the anomaly flag of
    the detector after this very event, and its anomaly ratio, mean,
    z-score and threshold after this event, each as
    [round(float(x), 4)]; the tags are the line, machine and sensor
    names, the time is that of the timestamp.  The function returns its
    pair with the number 201. *)
Theorem sensor_data_enriched_record
        (a : App) (data : SensorData) (o o' : AnomalyDetectionZscore)
        (rounded value ratio avg z thresh seconds : num) (t : datetime) :
  SensorName data ∈ generic_sensors_for_analytics a ->
  generic_analytics_objects a !! SensorName data = Some o ->
  detector_pipeline (Z_SCORE_THRESHOLD a) (SensorValue data) o = (o', Ok tt) ->
  py_round (SensorValue data) 4 = Ok rounded ->
  py_float rounded = Ok value ->
  match py_float (anomaly_ratio o') with Ok f => py_round f 4 | Raise e => Raise e end
  = Ok ratio ->
  match py_float (model_avg o') with Ok f => py_round f 4 | Raise e => Raise e end
  = Ok avg ->
  match py_float (z_score o') with Ok f => py_round f 4 | Raise e => Raise e end
  = Ok z ->
  match py_float (z_score_thresh o') with Ok f => py_round f 4 | Raise e => Raise e end
  = Ok thresh ->
  py_truediv (py_int (TimeStamp data)) (py_int 1000) = Ok seconds ->
  datetime_fromtimestamp seconds = Ok t ->
  sensor_data data a =
    (set_influx
       (append (influx a)
               {| measurement := "SingleSensorAnalytics";
                  tags := [("line_name"%string, LineName data);
                           ("machine_name"%string, MachineName data);
                           ("sensor_name"%string, SensorName data)];
                  fields := [("value"%string, value);
                             ("anomaly"%string, py_int (anomaly o'));
                             ("anomaly_ratio"%string, ratio);
                             ("model_avg"%string, avg);
                             ("z_score"%string, z);
                             ("z_score_thresh"%string, thresh)];
                  time := t |})
       (set_generic_analytics_objects
          (<[SensorName data := o']> (generic_analytics_objects a)) a),
     Ok 201).
Proof.
  intros Hname Hobj Hpipe Hround Hfloat Hratio Havg Hz Hthresh Hdiv Htime.
  exact (proj1 (sensor_data_point a data o o' rounded value seconds _ t
                  Hname Hobj Hpipe Hround Hfloat
                  (analytics_fields_values o' a ratio avg z thresh Hratio Havg Hz Hthresh)
                  Hdiv Htime)).
Qed.

Ltac app_cases :=
  unfold_app; unfold_monad; cbn;
  repeat (next_case; cbn; rewrite ?lookup_insert_eq).

(** The detector of a configured sensor goes through the pipeline with
    the sensor value, whether or not the point can be built afterwards. *)
Lemma sensor_data_feeds (a : App) (data : SensorData) (o : AnomalyDetectionZscore) :
  SensorName data ∈ generic_sensors_for_analytics a ->
  generic_analytics_objects a !! SensorName data = Some o ->
  generic_analytics_objects (state_after (sensor_data data) a) !! SensorName data
  = Some (state_after (detector_pipeline (Z_SCORE_THRESHOLD a) (SensorValue data)) o).
Proof.
  intros Hname Hobj.
  unfold detector_pipeline, state_after. unfold_app.
  unfold bind, gets, lift, modify, ret.
  rewrite bool_decide_eq_true_2 by exact Hname. rewrite Hobj.
  destruct (z_score_thresh_setter (Z_SCORE_THRESHOLD a) o) as [o1 [[]|e1]];
    cbn; rewrite ?lookup_insert_eq; [|reflexivity].
  destruct (check_if_anomaly (SensorValue data) o1) as [o2 [[]|e2]];
    cbn; rewrite ?lookup_insert_eq; [|reflexivity].
  destruct (calculate_anomaly_ratio o2) as [o3 [[]|e3]];
    cbn; rewrite ?lookup_insert_eq; [|reflexivity].
  repeat (next_case; cbn; rewrite ?lookup_insert_eq; try reflexivity).
Qed.

(** What a POST to [/generic-sensor] leaves alone. *)
Lemma sensor_data_frame (a : App) (data : SensorData) :
  let a' := state_after (sensor_data data) a in
  Z_SCORE_THRESHOLD a' = Z_SCORE_THRESHOLD a /\
  generic_sensors_for_analytics a' = generic_sensors_for_analytics a /\
  vibration_sensors_for_analytics a' = vibration_sensors_for_analytics a /\
  vibration_analytics_objects a' = vibration_analytics_objects a /\
  (forall name, name <> SensorName data ->
                generic_analytics_objects a' !! name = generic_analytics_objects a !! name).
Proof.
  cbv zeta. repeat split; try (app_cases; reflexivity).
  intros name Hne. app_cases; rewrite ?lookup_insert_ne by congruence; reflexivity.
Qed.

Lemma vibration_sensor_data_frame (a : App) (data : VibrationData) :
  let a' := state_after (vibration_sensor_data data) a in
  Z_SCORE_THRESHOLD a' = Z_SCORE_THRESHOLD a /\
  generic_sensors_for_analytics a' = generic_sensors_for_analytics a /\
  vibration_sensors_for_analytics a' = vibration_sensors_for_analytics a /\
  generic_analytics_objects a' = generic_analytics_objects a /\
  (forall name, name <> VibSensorName data ->
                vibration_analytics_objects a' !! name = vibration_analytics_objects a !! name).
Proof.
  cbv zeta. repeat split; try (app_cases; reflexivity).
  intros name Hne. app_cases; rewrite ?lookup_insert_ne by congruence; reflexivity.
Qed.

Lemma sensor_data_influx (a : App) (data : SensorData) :
  let a' := state_after (sensor_data data) a in
  match outcome (sensor_data data) a with
  | Ok status => status = 201 /\ exists point, influx a' = influx a ++ [point]
  | Raise _ => influx a' = influx a
  end.
Proof. cbv zeta. app_cases; try reflexivity; split; eauto. Qed.

Lemma vibration_sensor_data_influx (a : App) (data : VibrationData) :
  let a' := state_after (vibration_sensor_data data) a in
  match outcome (vibration_sensor_data data) a with
  | Ok status =>
      status = 201 /\
      if bool_decide (VibSensorName data ∈ vibration_sensors_for_analytics a)
      then exists point, influx a' = influx a ++ [point]
      else influx a' = influx a
  | Raise _ => influx a' = influx a
  end.
Proof. cbv zeta. app_cases; try reflexivity; split; eauto. Qed.

(** X11: a handler touches no detector but the one of the event's own
    sensor: [sensor_data] leaves every vibration detector and every
    other generic detector as it was, [vibration_sensor_data] every
    generic detector and every other vibration detector.  Neither
    changes the threshold or the configured names.  A call that returns
    has handed one point to [write_to_influx] (none for a vibration
    sensor that is not configured); a call that raises has handed over
    none. *)
Theorem handlers_touch_only_their_sensor
        (a : App) (data : SensorData) (vib : VibrationData) :
  (let a' := state_after (sensor_data data) a in
   Z_SCORE_THRESHOLD a' = Z_SCORE_THRESHOLD a /\
   generic_sensors_for_analytics a' = generic_sensors_for_analytics a /\
   vibration_sensors_for_analytics a' = vibration_sensors_for_analytics a /\
   vibration_analytics_objects a' = vibration_analytics_objects a /\
   (forall name, name <> SensorName data ->
                 generic_analytics_objects a' !! name = generic_analytics_objects a !! name) /\
   match outcome (sensor_data data) a with
   | Ok _ => exists point, influx a' = influx a ++ [point]
   | Raise _ => influx a' = influx a
   end) /\
  (let a' := state_after (vibration_sensor_data vib) a in
   Z_SCORE_THRESHOLD a' = Z_SCORE_THRESHOLD a /\
   generic_sensors_for_analytics a' = generic_sensors_for_analytics a /\
   vibration_sensors_for_analytics a' = vibration_sensors_for_analytics a /\
   generic_analytics_objects a' = generic_analytics_objects a /\
   (forall name, name <> VibSensorName vib ->
                 vibration_analytics_objects a' !! name
                 = vibration_analytics_objects a !! name) /\
   match outcome (vibration_sensor_data vib) a with
   | Ok _ =>
       if bool_decide (VibSensorName vib ∈ vibration_sensors_for_analytics a)
       then exists point, influx a' = influx a ++ [point]
       else influx a' = influx a
   | Raise _ => influx a' = influx a
   end).
Proof.
  split; cbv zeta.
  - pose proof (sensor_data_frame a data) as (H1 & H2 & H3 & H4 & H5).
    pose proof (sensor_data_influx a data) as H6. cbv zeta in *.
    repeat (split; [assumption|]).
    destruct (outcome (sensor_data data) a); [exact (proj2 H6)|exact H6].
  - pose proof (vibration_sensor_data_frame a vib) as (H1 & H2 & H3 & H4 & H5).
    pose proof (vibration_sensor_data_influx a vib) as H6. cbv zeta in *.
    repeat (split; [assumption|]).
    destruct (outcome (vibration_sensor_data vib) a); [exact (proj2 H6)|exact H6].
Qed.

(** X12: when the configured threshold equals zero, every event of a
    sensor that is configured for analytics fails: the threshold setter
    raises [NameError] before the reading is evaluated, so the request
    raises, the detector is not fed, no point is written and the service
    is exactly as before.  (For a vibration event the exception is the
    one of the total RMS if that cannot be computed.) *)
Theorem zero_threshold_fails_routed_events
        (a : App) (data : SensorData) (vib : VibrationData)
        (o ov : AnomalyDetectionZscore) :
  py_eq (Z_SCORE_THRESHOLD a) (py_int 0) = true ->
  SensorName data ∈ generic_sensors_for_analytics a ->
  generic_analytics_objects a !! SensorName data = Some o ->
  VibSensorName vib ∈ vibration_sensors_for_analytics a ->
  vibration_analytics_objects a !! VibSensorName vib = Some ov ->
  sensor_data data a = (a, Raise NameError) /\
  exists e, vibration_sensor_data vib a = (a, Raise e) /\
            (is_ok (vib_total_rms (VibAccelTotRmsX vib) (VibAccelTotRmsY vib)
                                  (VibAccelTotRmsZ vib)) = true -> e = NameError).
Proof.
  intros Hzero Hname Hobj Hvname Hvobj. split.
  - unfold_app. unfold z_score_thresh_setter, logger_error. unfold_monad.
    rewrite bool_decide_eq_true_2 by exact Hname. rewrite Hobj, Hzero. cbn.
    rewrite (insert_id _ _ _ Hobj), set_generic_analytics_objects_id. reflexivity.
  - unfold_app. unfold z_score_thresh_setter, logger_error. unfold_monad.
    rewrite bool_decide_eq_true_2 by exact Hvname.
    destruct (vib_total_rms _ _ _) as [rms|e]; cbn.
    + exists NameError. rewrite Hvobj, Hzero. cbn.
      rewrite (insert_id _ _ _ Hvobj), set_vibration_analytics_objects_id. auto.
    + exists e. split; [reflexivity|discriminate].
Qed.

(** *** Sequences of events *)

Lemma handle_sensor_events_cons (data : SensorData) (events : list SensorData) (a : App) :
  handle_sensor_events (data :: events) a
  = handle_sensor_events events (state_after (sensor_data data) a).
Proof. reflexivity. Qed.

Lemma handle_sensor_events_lookup
      (a : App) (events : list SensorData) (name : string)
      (o : AnomalyDetectionZscore) :
  name ∈ generic_sensors_for_analytics a ->
  generic_analytics_objects a !! name = Some o ->
  Z_SCORE_THRESHOLD (handle_sensor_events events a) = Z_SCORE_THRESHOLD a /\
  generic_sensors_for_analytics (handle_sensor_events events a)
  = generic_sensors_for_analytics a /\
  generic_analytics_objects (handle_sensor_events events a) !! name
  = Some (feed_all (Z_SCORE_THRESHOLD a) (values_of name events) o).
Proof.
  revert a o. induction events as [|data events IH]; intros a o Hname Hobj.
  - auto.
  - rewrite handle_sensor_events_cons.
    pose proof (sensor_data_frame a data) as (Hth & Hnames & _ & _ & Hother).
    cbv zeta in *. unfold values_of.
    destruct (decide (SensorName data = name)) as [<-|Hne].
    + rewrite filter_cons_True by reflexivity. cbn [map].
      destruct (IH (state_after (sensor_data data) a)
                   (state_after (detector_pipeline (Z_SCORE_THRESHOLD a)
                                                   (SensorValue data)) o))
        as (H1 & H2 & H3);
        [now rewrite Hnames|now apply sensor_data_feeds|].
      rewrite H1, H2, H3, Hth, Hnames. auto.
    + rewrite filter_cons_False by exact Hne.
      destruct (IH (state_after (sensor_data data) a) o) as (H1 & H2 & H3);
        [now rewrite Hnames|rewrite Hother by congruence; exact Hobj|].
      rewrite H1, H2, H3, Hth, Hnames. auto.
Qed.


End AppMore.

(** * The first readings of a sensor *)

Section WarmUp.
Context {PN : PyNumbers}.

(** One pipeline on a window that is not full, with a threshold other
    than zero: the reading is appended unclassified. *)
Lemma detector_pipeline_building
      (threshold value : num) (s : AnomalyDetectionZscore) :
  py_eq threshold (py_int 0) = false ->
  len (_model_data s) <> _model_size s ->
  let s' := state_after (detector_pipeline threshold value) s in
  _model_data s' = _model_data s ++ [value] /\
  _model_size s' = _model_size s /\
  _anomaly s' = _anomaly s /\
  _model_avg s' = _model_avg s /\
  _model_std_dev s' = _model_std_dev s /\
  _z_score s' = _z_score s /\
  _z_score_thresh s' = threshold.
Proof.
  intros Hnz Hb. cbv zeta.
  assert (E : state_after (detector_pipeline threshold value) s
              = state_after calculate_anomaly_ratio
                  (set_model_data (append (_model_data s) value)
                                  (set_z_score_thresh threshold s))).
  { unfold detector_pipeline, state_after, bind.
    unfold z_score_thresh_setter. rewrite Hnz. unfold modify.
    rewrite check_if_anomaly_building by exact Hb. reflexivity. }
  rewrite E.
  pose proof (calculate_anomaly_ratio_frame
                (set_model_data (append (_model_data s) value)
                                (set_z_score_thresh threshold s)))
    as (H1 & H2 & _ & H4 & H5 & H6 & H7 & H8 & _).
  cbv zeta in *. rewrite H1, H2, H4, H5, H6, H7, H8. repeat split.
Qed.

Lemma feed_all_building
      (threshold : num) (values : list num) (s : AnomalyDetectionZscore) :
  py_eq threshold (py_int 0) = false ->
  len (_model_data s) + len values <= _model_size s ->
  let s' := feed_all threshold values s in
  _model_data s' = _model_data s ++ values /\
  _anomaly s' = _anomaly s /\
  _model_avg s' = _model_avg s /\
  _model_std_dev s' = _model_std_dev s /\
  _z_score s' = _z_score s.
Proof.
  intros Hnz. revert s. induction values as [|v values IH]; intros s Hlen; cbv zeta.
  - cbn. now rewrite app_nil_r.
  - assert (Hb : len (_model_data s) <> _model_size s).
    { unfold len in *. cbn [length] in Hlen. lia. }
    pose proof (detector_pipeline_building threshold v s Hnz Hb)
      as (Hd & Hs & Ha & Hm & Hsd & Hz & _).
    cbv zeta in *.
    change (feed_all threshold (v :: values) s)
      with (feed_all threshold values (state_after (detector_pipeline threshold v) s)).
    destruct (IH (state_after (detector_pipeline threshold v) s))
      as (Hd' & Ha' & Hm' & Hsd' & Hz').
    { rewrite Hd, Hs. unfold len in *. rewrite length_app. cbn [length] in *. lia. }
    cbv zeta in *. rewrite Hd', Ha', Hm', Hsd', Hz', Hd, Ha, Hm, Hsd, Hz.
    rewrite <- app_assoc. repeat split.
Qed.

(** X14: with a threshold other than zero, the first readings of a
    configured sensor, as many as the model size at most and in whatever
    order they are mixed with events of other sensors, all enter the
    baseline window in their order without being classified: whatever
    their values, the anomaly flag stays 0 and the mean, the standard
    deviation and the z-score stay 0.0, also when requests raise while
    the point is built. *)
Theorem warm_up_admits_first_readings
        (a : App) (events : list SensorData) (name : string)
        (model_size anomaly_list_size : Z) :
  py_eq (Z_SCORE_THRESHOLD a) (py_int 0) = false ->
  name ∈ generic_sensors_for_analytics a ->
  generic_analytics_objects a !! name = Some (__init__ name model_size anomaly_list_size) ->
  len (values_of name events) <= model_size ->
  exists o,
    generic_analytics_objects (handle_sensor_events events a) !! name = Some o /\
    _model_data o = values_of name events /\
    anomaly o = 0 /\
    model_avg o = py_float_literal 0 0 /\
    model_std_dev o = py_float_literal 0 0 /\
    z_score o = py_float_literal 0 0.
Proof.
  intros Hnz Hname Hobj Hlen.
  exists (feed_all (Z_SCORE_THRESHOLD a) (values_of name events)
                   (__init__ name model_size anomaly_list_size)).
  split; [apply handle_sensor_events_lookup; assumption|].
  pose proof (feed_all_building (Z_SCORE_THRESHOLD a) (values_of name events)
                                (__init__ name model_size anomaly_list_size) Hnz)
    as H.
  cbn in H. destruct H as (Hd & Ha & Hm & Hsd & Hz); [unfold len at 1; cbn; lia|].
  unfold anomaly, model_avg, model_std_dev, z_score. auto.
Qed.

End WarmUp.

(** * Further properties on CPython's numbers *)

Module OnPy64More.

Import Scenario.
Import Completeness.

(** *** Exact quotients *)

Lemma digits2_pos_size (p : positive) : digits2_pos p = Pos.size p.
Proof. induction p; cbn; congruence. Qed.

Lemma Zdigits2_log2 (p : positive) : Zdigits2 (Zpos p) = Z.log2 (Zpos p) + 1.
Proof.
  unfold Zdigits2. rewrite digits2_pos_size.
  destruct p; cbn; lia.
Qed.

Lemma log2_times_100 (n : Z) :
  0 < n -> Z.log2 (100 * n) = Z.log2 n + 6 \/ Z.log2 (100 * n) = Z.log2 n + 7.
Proof.
  intros Hn.
  destruct (Z.log2_spec n Hn) as [Hlo Hhi].
  assert (H6 : Z.log2 n + 6 <= Z.log2 (100 * n)).
  { apply Z.log2_le_pow2; [lia|]. rewrite Z.pow_add_r by (try apply Z.log2_nonneg; lia).
    change (2 ^ 6) with 64. lia. }
  assert (H8 : Z.log2 (100 * n) < Z.log2 n + 8).
  { apply Z.log2_lt_pow2; [lia|].
    replace (Z.log2 n + 8) with (Z.succ (Z.log2 n) + 7) by lia.
    rewrite Z.pow_add_r by (try (pose proof (Z.log2_nonneg n)); lia).
    change (2 ^ 7) with 128. lia. }
  lia.
Qed.

Lemma div_eucl_mul (c n : Z) : 0 < n -> Z.div_eucl (c * n) n = (c, 0).
Proof.
  intros Hn.
  pose proof (Z.div_mul c n) as Hd. pose proof (Z.mod_mul c n) as Hm.
  unfold Z.div, Z.modulo in *. destruct (Z.div_eucl (c * n) n) as [q r].
  cbn in *. rewrite Hd, Hm by lia. reflexivity.
Qed.

Lemma new_location_0 (n : Z) : new_location n 0 = loc_Exact.
Proof. unfold new_location. now destruct (Z.even n). Qed.

Lemma int_truediv_100 (n : Z) :
  0 < n -> Py64.int_truediv (100 * n) n = Ok (S754_finite false 7036874417766400 (-46)).
Proof.
  intros Hn. destruct n as [|q|q]; try lia.
  unfold Py64.int_truediv.
  change (100 * Z.pos q) with (Z.pos (100 * q)).
  assert (Hp : Z.pos (100 * q) = 100 * Z.pos q) by reflexivity.
  set (p := (100 * q)%positive) in *.
  cbn [Z.eqb Z.ltb Z.compare xorb].
  change (Z.abs (Z.pos p)) with (Z.pos p).
  change (Z.abs (Z.pos q)) with (Z.pos q).
  change (Z.to_pos (Z.pos q)) with q.
  cbv iota beta.
  unfold SFdiv, SFdiv_core_binary.
  rewrite !Zdigits2_log2, Hp.
  destruct (log2_times_100 (Zpos q)) as [H|H]; [lia| |]; rewrite H.
  - replace (Z.log2 (Z.pos q) + 6 + 1 + 0 - (Z.log2 (Z.pos q) + 1 + 0)) with 6 by lia.
    change (Z.min (fexp Py64.prec Py64.emax 6) (0 - 0)) with (-47).
    change (0 - 0 - -47) with 47.
    cbv iota beta.
    rewrite Z.shiftl_mul_pow2 by lia.
    replace (100 * Z.pos q * 2 ^ 47) with ((100 * 2 ^ 47) * Z.pos q) by lia.
    rewrite div_eucl_mul by lia. rewrite new_location_0. reflexivity.
  - replace (Z.log2 (Z.pos q) + 7 + 1 + 0 - (Z.log2 (Z.pos q) + 1 + 0)) with 7 by lia.
    change (Z.min (fexp Py64.prec Py64.emax 7) (0 - 0)) with (-46).
    change (0 - 0 - -46) with 46.
    cbv iota beta.
    rewrite Z.shiftl_mul_pow2 by lia.
    replace (100 * Z.pos q * 2 ^ 46) with ((100 * 2 ^ 46) * Z.pos q) by lia.
    rewrite div_eucl_mul by lia. rewrite new_location_0. reflexivity.
Qed.

Lemma int_truediv_self (n : Z) :
  0 < n -> Py64.int_truediv n n = Ok (S754_finite false 4503599627370496 (-52)).
Proof.
  intros Hn. destruct n as [|q|q]; try lia.
  unfold Py64.int_truediv.
  cbn [Z.eqb Z.ltb Z.compare xorb].
  change (Z.abs (Z.pos q)) with (Z.pos q).
  change (Z.to_pos (Z.pos q)) with q.
  cbv iota beta.
  unfold SFdiv, SFdiv_core_binary.
  replace (Zdigits2 (Z.pos q) + 0 - (Zdigits2 (Z.pos q) + 0)) with 0 by lia.
  change (Z.min (fexp Py64.prec Py64.emax 0) (0 - 0)) with (-53).
  change (0 - 0 - -53) with 53.
  cbv iota beta.
  rewrite Z.shiftl_mul_pow2 by lia.
  replace (Z.pos q * 2 ^ 53) with (2 ^ 53 * Z.pos q) by lia.
  rewrite div_eucl_mul by lia. rewrite new_location_0. reflexivity.
Qed.

(** *** [model_completeness] *)

(** X15: the [model_completeness] property of a detector whose baseline
    window is full, for any positive model size, is exactly 100. *)
Theorem model_completeness_full (s : Detector) :
  active s ->
  0 < _model_size s ->
  model_completeness s = Ok 100.
Proof.
  unfold active, model_completeness. intros -> Hsize.
  now rewrite int_truediv_100.
Qed.

(** X16: on a fresh detector [model_completeness] is 0 for every model
    size but zero, negative sizes included, and raises
    [ZeroDivisionError] for the model size zero. *)
Theorem model_completeness_fresh (name : string) (model_size anomaly_list_size : Z) :
  model_completeness (__init__ name model_size anomaly_list_size)
  = if model_size =? 0 then Raise ZeroDivisionError else Ok 0.
Proof.
  unfold model_completeness, Py64.int_truediv. cbn.
  now destruct (model_size =? 0).
Qed.

End OnPy64More.

(** * Requests with missing keys *)

Ltac unfold_requests :=
  unfold sensor_data_request, vibration_sensor_data_request, getitem, app_logger_error in *.

Section RequestFacts.
Context {PN : PyNumbers} {PW : PyPower}.

(** On a body that has every key, the handlers that look the keys up
    one by one are the handlers on well-formed bodies: same service
    state afterwards, same return value or exception. *)
Lemma complete_requests_are_well_formed
        (a : App) (data : SensorData) (vib : VibrationData) :
  sensor_data_request (Some (sensor_body data)) a = sensor_data data a /\
  vibration_sensor_data_request (Some (vibration_body vib)) a
  = vibration_sensor_data vib a.
Proof. split; reflexivity. Qed.

(** X17: on a parsed body that Python takes as false, [sensor_data] and
    [vibration_sensor_data] return at once, the number in the returned
    pair being 400; on a body that lacks the sensor name or a measured
    value the error is caught and logged and they return the pair with
    201.  In both cases nothing is raised, no detector is touched and
    nothing is handed to [write_to_influx]: the service is as before. *)
Theorem requests_without_required_keys_change_nothing
        (a : App) (data : SensorBody) (vib : VibrationBody) :
  lacks_required_key data ->
  vibration_lacks_required_key vib ->
  sensor_data_request None a = (a, Ok 400) /\
  vibration_sensor_data_request None a = (a, Ok 400) /\
  sensor_data_request (Some data) a = (a, Ok 201) /\
  vibration_sensor_data_request (Some vib) a = (a, Ok 201).
Proof.
  intros Hd Hv. repeat split.
  - unfold sensor_data_request. destruct Hd as [-> | ->];
      [reflexivity|now destruct (body_SensorName data)].
  - unfold vibration_sensor_data_request.
    destruct Hv as [-> | [-> | [-> | ->]]];
      destruct (body_VibSensorName vib); try reflexivity;
      destruct (body_VibAccelTotRmsX vib); try reflexivity;
      destruct (body_VibAccelTotRmsY vib); try reflexivity;
      destruct (body_VibAccelTotRmsZ vib); reflexivity.
Qed.

(** X18: a POST to [/generic-sensor] for a configured sensor whose body
    has the sensor name and value but lacks the line name, the machine
    name or the timestamp raises and writes no point, and yet the
    detector has gone through the pipeline with the value: the reading
    is consumed by the baseline though it is never stored.  When the
    pipeline itself raised nothing and the line or machine name is the
    missing key, the exception is [KeyError]. *)
Theorem missing_point_key_loses_the_reading
        (a : App) (data : SensorBody) (name : string) (value : num)
        (o : AnomalyDetectionZscore) :
  body_SensorName data = Some name ->
  body_SensorValue data = Some value ->
  lacks_point_key data ->
  name ∈ generic_sensors_for_analytics a ->
  generic_analytics_objects a !! name = Some o ->
  let a' := state_after (sensor_data_request (Some data)) a in
  is_ok (outcome (sensor_data_request (Some data)) a) = false /\
  influx a' = influx a /\
  generic_analytics_objects a' !! name
  = Some (state_after (detector_pipeline (Z_SCORE_THRESHOLD a) value) o) /\
  (is_ok (outcome (detector_pipeline (Z_SCORE_THRESHOLD a) value) o) = true ->
   body_LineName data = None \/ body_MachineName data = None ->
   outcome (sensor_data_request (Some data)) a = Raise KeyError).
Proof.
  intros Hn Hv Hlack Hname Hobj. cbv zeta. unfold lacks_point_key in Hlack.
  unfold detector_pipeline, sensor_data_request. rewrite Hn, Hv.
  unfold on_generic_object, analytics_fields, round4_float, point_time,
    write_to_influx, getitem.
  unfold bind, gets, lift, modify, ret, raise, state_after, outcome.
  rewrite bool_decide_eq_true_2 by exact Hname. rewrite Hobj.
  destruct (z_score_thresh_setter (Z_SCORE_THRESHOLD a) o) as [o1 [[]|e1]];
    cbn; rewrite ?lookup_insert_eq; [|repeat split; discriminate].
  destruct (check_if_anomaly value o1) as [o2 [[]|e2]];
    cbn; rewrite ?lookup_insert_eq; [|repeat split; discriminate].
  destruct (calculate_anomaly_ratio o2) as [o3 [[]|e3]];
    cbn; rewrite ?lookup_insert_eq; [|repeat split; discriminate].
  destruct (body_LineName data) as [line|]; cbn;
    [|repeat split; rewrite ?lookup_insert_eq; reflexivity].
  destruct (body_MachineName data) as [machine|]; cbn;
    [|repeat split; rewrite ?lookup_insert_eq; reflexivity].
  destruct (body_TimeStamp data) as [timestamp|]; cbn.
  { destruct Hlack as [H|[H|H]]; discriminate. }
  repeat (next_case; cbn; rewrite ?lookup_insert_eq);
    repeat split; try reflexivity; intros _ [H|H]; discriminate.
Qed.

End RequestFacts.

(** * Edge configurations on CPython's numbers *)

Module OnPy64Edge.

Import Scenario.
Import Completeness.
Import StateHandler.

(** *** A model size of one or less *)

Lemma stdev_short (data : list Py64.pynum) :
  len data < 2 -> Py64.stdev data = Raise StatisticsError.
Proof.
  intros Hlen. unfold Py64.stdev, Py64._ss.
  destruct (Z.ltb_spec (Py64.count data) 2) as [_|Hge]; [reflexivity|].
  unfold Py64.count, len in *. lia.
Qed.

Lemma step_never_classifies (s : Detector) (c : call) :
  _model_size s <= 1 /\ _anomaly s = 0 /\ _z_score s = f0_0 /\ _model_std_dev s = f0_0 ->
  _model_size (step s c) <= 1 /\ _anomaly (step s c) = 0 /\
  _z_score (step s c) = f0_0 /\ _model_std_dev (step s c) = f0_0.
Proof.
  intros (Hsize & Ha & Hz & Hsd).
  destruct c as [value| |t|]; cbn [step].
  - pose proof (check_if_anomaly_frame value s) as (Hms & _). cbv zeta in Hms.
    rewrite Hms. split; [exact Hsize|].
    destruct (Z.eq_dec (len (_model_data s)) (_model_size s)) as [Hact|Hb].
    + destruct (check_if_anomaly_without_stdev value s Hact) as (_ & _ & -> & -> & ->);
        [|auto].
      change (statistics_stdev (_model_data s)) with (Py64.stdev (_model_data s)).
      rewrite stdev_short; [reflexivity|].
      unfold active in Hact. cbn in Hact |- *. rewrite Hact. lia.
    + unfold state_after. rewrite check_if_anomaly_building by exact Hb. cbn. auto.
  - pose proof (calculate_anomaly_ratio_frame s) as (_ & -> & _ & -> & _ & -> & -> & _).
    auto.
  - unfold state_after, z_score_thresh_setter, logger_error, bind, raise, modify.
    destruct (py_eq t (py_int 0)); cbn; auto.
  - cbn. repeat split; lia.
Qed.

(** X19: a detector constructed with a model size of 1 or less never
    classifies a reading: after any sequence of calls its anomaly flag
    is 0, and its z-score and standard deviation are the constructor's
    0.0.  (With one reading in the window [statistics.stdev] raises, with
    none [statistics.mean] does, and below zero the window is never
    full.) *)
Theorem small_model_never_classifies
        (name : string) (model_size anomaly_list_size : Z)
        (calls : list (@call Py64.numbers)) :
  model_size <= 1 ->
  let s := run_calls (__init__ name model_size anomaly_list_size) calls in
  anomaly s = 0 /\ z_score s = f0_0 /\ model_std_dev s = f0_0.
Proof.
  intros Hsize. cbv zeta.
  assert (H : forall s : Detector,
             _model_size s <= 1 /\ _anomaly s = 0 /\ _z_score s = f0_0 /\
             _model_std_dev s = f0_0 ->
             _model_size (run_calls s calls) <= 1 /\ _anomaly (run_calls s calls) = 0 /\
             _z_score (run_calls s calls) = f0_0 /\
             _model_std_dev (run_calls s calls) = f0_0).
  { induction calls as [|c calls IH]; intros s Hs; [exact Hs|].
    apply (IH (step s c)). now apply step_never_classifies. }
  destruct (H (__init__ name model_size anomaly_list_size)) as (_ & Ha & Hz & Hsd).
  { cbn. auto. }
  auto.
Qed.

(** *** The anomaly ratio at its two ends *)

Lemma py_sum_constant (flag : Z) (l : list Z) :
  Forall (fun a => a = flag) l -> py_sum l = flag * len l.
Proof.
  unfold len. induction 1 as [|x l Hx _ IH].
  - cbn. lia.
  - unfold py_sum. cbn [fold_left length]. rewrite py_sum_from, IH. subst x. lia.
Qed.

(** X20: when, on a full baseline and with a full anomaly window of a
    positive size, the flags that remain after the eviction and the
    current flag are all 1, [calculate_anomaly_ratio] stores the ratio
    1.0, and when they are all 0 it stores 0.0; it raises nothing. *)
Theorem anomaly_ratio_extremes
        (s : Detector) (oldest flag : Z) (rest : list Z) :
  active s ->
  _anomaly_list s = oldest :: rest ->
  len (oldest :: rest) = _anomaly_list_size s ->
  Forall (fun a => a = flag) rest ->
  _anomaly s = flag ->
  flag = 0 \/ flag = 1 ->
  calculate_anomaly_ratio s
  = (set_anomaly_ratio (if flag =? 0 then f0_0 else Py64.float_literal 1 0)
       (set_anomaly_list (append rest flag) s), Ok tt).
Proof.
  intros Hact Hlist Hfull Hrest Hflag Hbin.
  rewrite (calculate_anomaly_ratio_full s oldest rest Hact Hlist) by lia.
  rewrite Hflag.
  assert (Hsum : py_sum (append rest flag) = flag * _anomaly_list_size s).
  { rewrite (py_sum_constant flag).
    - rewrite len_append, <- Hfull. unfold len. cbn [length]. lia.
    - unfold append. rewrite Forall_app. split; [exact Hrest|]. repeat constructor. }
  rewrite Hsum.
  assert (Hpos : 0 < _anomaly_list_size s).
  { rewrite <- Hfull. unfold len. cbn [length]. lia. }
  cbn [py_truediv py_int py_round Py64.numbers Py64.truediv].
  destruct Hbin as [-> | ->].
  - rewrite Z.mul_0_l. unfold Py64.int_truediv.
    destruct (Z.eqb_spec (_anomaly_list_size s) 0) as [|_]; [lia|].
    destruct (Z.ltb_spec (_anomaly_list_size s) 0) as [|_]; [lia|].
    reflexivity.
  - rewrite Z.mul_1_l, OnPy64More.int_truediv_self by exact Hpos. reflexivity.
Qed.

(** *** The state handler *)

(** X21: [state_data] never touches the analytics: for every parsed
    body, the threshold, the configured names and every detector are as
    before.  On a body that Python takes as false, and on a body that
    lacks the state name or value, it returns normally with the service
    as before; on any other body it either returns after handing one
    [GenericState] point to [write_to_influx], or raises and has handed
    over none. *)
Theorem state_requests_leave_analytics_alone
        (a : @App Py64.numbers) (request : option StateBody) :
  let a' := state_after (state_data_request request) a in
  Z_SCORE_THRESHOLD a' = Z_SCORE_THRESHOLD a /\
  generic_sensors_for_analytics a' = generic_sensors_for_analytics a /\
  vibration_sensors_for_analytics a' = vibration_sensors_for_analytics a /\
  generic_analytics_objects a' = generic_analytics_objects a /\
  vibration_analytics_objects a' = vibration_analytics_objects a /\
  match request with
  | None => a' = a /\ is_ok (outcome (state_data_request request) a) = true
  | Some data =>
      match body_StateName data, body_StateValue data with
      | Some _, Some _ =>
          match outcome (state_data_request request) a with
          | Ok _ =>
              exists point, influx a' = influx a ++ [point] /\
                            measurement point = "GenericState"%string
          | Raise _ => influx a' = influx a
          end
      | _, _ => a' = a /\ is_ok (outcome (state_data_request request) a) = true
      end
  end.
Proof.
  cbv zeta. unfold state_data_request, getitem, app_logger_error, point_time,
    write_to_influx.
  unfold bind, gets, lift, modify, ret, raise, state_after, outcome.
  destruct request as [data|]; [|cbn; auto 10].
  destruct (body_StateName data), (body_StateValue data); cbn; auto 10.
  repeat (next_case; cbn); repeat split; eauto.
Qed.

End OnPy64Edge.

(** * The further properties at concrete inputs *)

Module Witnesses.

Import Scenario.
Import Scenario2.
Import Completeness.
Import StateHandler.

Lemma baseline_fills_in_order_witness :
  let fresh_detector : Detector := __init__ "sensor" 3 2 in
  run_calls fresh_detector (map (@Evaluate Py64.numbers) mixed_readings)
  = set_model_data mixed_readings fresh_detector /\
  call_outcomes fresh_detector (map (@Evaluate Py64.numbers) mixed_readings)
  = map (fun _ => Ok tt) mixed_readings.
Proof.
  apply (@baseline_fills_in_order Py64.numbers "sensor" 3 2 mixed_readings).
  vm_compute. discriminate.
Defined.

Lemma full_baseline_stays_full_witness :
  active (run_calls ratio_start some_calls) /\
  len (_anomaly_list ratio_start) <= len (_anomaly_list (run_calls ratio_start some_calls)).
Proof.
  apply (full_baseline_stays_full ratio_start some_calls); reflexivity.
Defined.

Lemma anomaly_verdict_repeats_witness :
  run_calls spread_start (replicate 4%nat (Evaluate (PInt 100)))
  = set_anomaly 1 (store_statistics (PInt 2) (Py64.float_literal 1 0) f98_0 spread_start).
Proof.
  apply (anomaly_verdict_repeats spread_start (PInt 100) (PInt 1) [PInt 2; PInt 3]
           (PInt 2) (Py64.float_literal 1 0) f98_0 3); reflexivity.
Defined.

Lemma completing_reading_is_flagged_witness :
  evaluate_and_update (PInt 10) almost_full
  = (set_anomaly_list [0]
       (set_model_data [PInt 10; PInt 10; PInt 10] almost_full), Ok tt).
Proof.
  apply (completing_reading_is_flagged almost_full (PInt 10)).
  - reflexivity.
  - vm_compute. reflexivity.
Defined.

Lemma anomaly_window_slides_witness :
  let s' := state_after calculate_anomaly_ratio window_1_0 in
  _anomaly_list s' = [0; 0] /\
  len (_anomaly_list s') = len (_anomaly_list window_1_0) /\
  _anomaly_ratio s' = f0_0 /\ outcome calculate_anomaly_ratio window_1_0 = Ok tt.
Proof.
  apply (anomaly_window_slides window_1_0 1 [0]).
  - reflexivity.
  - reflexivity.
  - vm_compute. discriminate.
Defined.

Lemma zero_anomaly_list_size_always_raises_witness :
  calculate_anomaly_ratio no_anomaly_list = (no_anomaly_list, Raise NameError).
Proof.
  apply (zero_anomaly_list_size_always_raises no_anomaly_list).
  - reflexivity.
  - reflexivity.
  - vm_compute. discriminate.
Defined.


Lemma sensor_data_enriched_record_witness :
  let o' : Detector :=
    state_after (@detector_pipeline Py64.numbers f2_0 (PInt 100)) ratio_start in
  @sensor_data Py64.numbers (temperature_event (PInt 100)) trained_app =
    (set_influx
       [{| measurement := "SingleSensorAnalytics";
           tags := [("line_name"%string, "line 1"%string);
                    ("machine_name"%string, "lathe"%string);
                    ("sensor_name"%string, "temperature"%string)];
           fields := [("value"%string, Py64.float_literal 100 0);
                      ("anomaly"%string, PInt 1);
                      ("anomaly_ratio"%string, f0_0);
                      ("model_avg"%string, f10_0);
                      ("z_score"%string, f90000_0);
                      ("z_score_thresh"%string, f2_0)];
           time := 1700000000123000 |}]
       (set_generic_analytics_objects
          (<["temperature"%string := o']> (generic_analytics_objects trained_app))
          trained_app),
     Ok 201).
Proof.
  cbv zeta.
  apply (@sensor_data_enriched_record Py64.numbers trained_app
           (temperature_event (PInt 100)) ratio_start
           (state_after (@detector_pipeline Py64.numbers f2_0 (PInt 100)) ratio_start)
           (PInt 100) (Py64.float_literal 100 0)
           f0_0 f10_0 f90000_0 f2_0
           (Py64.float_literal 1700000000123 (-3))
           1700000000123000).
  - vm_compute. left.
  - reflexivity.
  - reflexivity.
  - reflexivity.
  - reflexivity.
  - reflexivity.
  - reflexivity.
  - reflexivity.
  - reflexivity.
  - reflexivity.
  - reflexivity.
Defined.

Lemma zero_threshold_fails_routed_events_witness :
  @sensor_data Py64.numbers temperature_21_5 zero_threshold_app
  = (zero_threshold_app, Raise NameError) /\
  exists e, @vibration_sensor_data Py64.numbers _ axes_3_4_0 zero_threshold_app
            = (zero_threshold_app, Raise e) /\
            (is_ok (@vib_total_rms Py64.numbers _ (PInt 3) (PInt 4) (PInt 0)) = true ->
             e = NameError).
Proof.
  apply (@zero_threshold_fails_routed_events Py64.numbers _ zero_threshold_app
           temperature_21_5 axes_3_4_0
           (@__init__ Py64.numbers "temperature" 3 2)
           (@__init__ Py64.numbers "spindle" 3 2)).
  - reflexivity.
  - vm_compute. left.
  - reflexivity.
  - vm_compute. left.
  - reflexivity.
Defined.


Lemma warm_up_admits_first_readings_witness :
  exists o : Detector,
    generic_analytics_objects (@handle_sensor_events Py64.numbers mixed_events demo_app)
      !! "temperature"%string = Some o /\
    _model_data o = [Py64.float_literal 215 (-1); PInt 22] /\
    anomaly o = 0 /\
    model_avg o = f0_0 /\
    model_std_dev o = f0_0 /\
    z_score o = f0_0.
Proof.
  apply (@warm_up_admits_first_readings Py64.numbers demo_app mixed_events
           "temperature" 3 2).
  - reflexivity.
  - vm_compute. left.
  - reflexivity.
  - vm_compute. discriminate.
Defined.

Lemma model_completeness_full_witness :
  model_completeness ratio_start = Ok 100.
Proof.
  apply (OnPy64More.model_completeness_full ratio_start).
  - reflexivity.
  - reflexivity.
Defined.

Lemma requests_without_required_keys_change_nothing_witness :
  @sensor_data_request Py64.numbers None demo_app = (demo_app, Ok 400) /\
  @vibration_sensor_data_request Py64.numbers _ None demo_app = (demo_app, Ok 400) /\
  @sensor_data_request Py64.numbers (Some body_without_value) demo_app
  = (demo_app, Ok 201) /\
  @vibration_sensor_data_request Py64.numbers _ (Some vibration_body_without_z) demo_app
  = (demo_app, Ok 201).
Proof.
  apply (@requests_without_required_keys_change_nothing Py64.numbers _ demo_app
           body_without_value vibration_body_without_z).
  - right. reflexivity.
  - right. right. right. reflexivity.
Defined.

Lemma missing_point_key_loses_the_reading_witness :
  let a' := state_after (@sensor_data_request Py64.numbers (Some body_without_line))
                        demo_app in
  is_ok (outcome (@sensor_data_request Py64.numbers (Some body_without_line)) demo_app)
  = false /\
  influx a' = influx demo_app /\
  generic_analytics_objects a' !! "temperature"%string
  = Some (state_after (@detector_pipeline Py64.numbers f2_0 (PInt 21))
                      (__init__ "temperature" 3 2)) /\
  (is_ok (outcome (@detector_pipeline Py64.numbers f2_0 (PInt 21))
                  (__init__ "temperature" 3 2)) = true ->
   body_LineName body_without_line = None \/ body_MachineName body_without_line = None ->
   outcome (@sensor_data_request Py64.numbers (Some body_without_line)) demo_app
   = Raise KeyError).
Proof.
  apply (@missing_point_key_loses_the_reading Py64.numbers demo_app body_without_line
           "temperature" (PInt 21) (__init__ "temperature" 3 2)).
  - reflexivity.
  - reflexivity.
  - left. reflexivity.
  - vm_compute. left.
  - reflexivity.
Defined.

Lemma small_model_never_classifies_witness :
  let s : Detector :=
    run_calls (__init__ "sensor" 1 2)
      [@Evaluate Py64.numbers (PInt 10); UpdateAnomalyRatio;
       Evaluate (PInt 1000); UpdateAnomalyRatio; Evaluate (PInt 10)] in
  anomaly s = 0 /\ z_score s = f0_0 /\ model_std_dev s = f0_0.
Proof.
  apply (OnPy64Edge.small_model_never_classifies "sensor" 1 2). vm_compute. discriminate.
Defined.

Lemma anomaly_ratio_extremes_witness :
  calculate_anomaly_ratio window_1_1
  = (set_anomaly_ratio (Py64.float_literal 1 0) (set_anomaly_list [1; 1] window_1_1),
     Ok tt).
Proof.
  apply (OnPy64Edge.anomaly_ratio_extremes window_1_1 1 1 [1]).
  - reflexivity.
  - reflexivity.
  - reflexivity.
  - repeat constructor.
  - reflexivity.
  - right. reflexivity.
Defined.

End Witnesses.
